(** * Spreadsheet feeding service: row ingestion of [SpreadsheetFeedingService._update]

    A shallow embedding of [server/belga/io/feeding_services/spreadsheet.py].
    The grid read from the worksheet is a list of rows, each a list of
    strings.  The dictionary [index] is a finite map from column titles to
    zero-based positions.  Python exceptions are values of [exn]; code that
    may raise lives in the error monad [res].  The libraries the service
    calls (pytz, dateutil, tzlocal, the events resource, the identifier
    generator) are variables of the section [Update]. *)

From Stdlib Require Import ZArith String Ascii List Bool Lia.
From stdpp Require Import base option list strings gmap.
Import ListNotations.

Local Open Scope string_scope.
Local Open Scope nat_scope.

(** ** Python strings

    Text is modelled as strings of 8-bit characters; [lower], [upper] and
    [strip] act on the ASCII range as [str.lower], [str.upper] and
    [str.strip] do. *)

Module Py.

Definition isspace (c : ascii) : bool :=
  let n := nat_of_ascii c in
  ((9 <=? n) && (n <=? 13)) || ((28 <=? n) && (n <=? 32)).

Definition upper_char (c : ascii) : ascii :=
  let n := nat_of_ascii c in
  if (97 <=? n) && (n <=? 122) then ascii_of_nat (n - 32) else c.

Definition lower_char (c : ascii) : ascii :=
  let n := nat_of_ascii c in
  if (65 <=? n) && (n <=? 90) then ascii_of_nat (n + 32) else c.

Fixpoint upper (s : string) : string :=
  match s with
  | EmptyString => EmptyString
  | String c r => String (upper_char c) (upper r)
  end.

Fixpoint lower (s : string) : string :=
  match s with
  | EmptyString => EmptyString
  | String c r => String (lower_char c) (lower r)
  end.

Fixpoint lstrip (s : string) : string :=
  match s with
  | EmptyString => EmptyString
  | String c r => if isspace c then lstrip r else s
  end.

Fixpoint rstrip (s : string) : string :=
  match s with
  | EmptyString => EmptyString
  | String c r =>
      match rstrip r with
      | EmptyString => if isspace c then EmptyString else String c EmptyString
      | r' => String c r'
      end
  end.

Definition strip (s : string) : string := rstrip (lstrip s).

(** Truth value of a string: the empty string is false. *)
Definition truthy (s : string) : bool :=
  match s with
  | EmptyString => false
  | String _ _ => true
  end.

(** [sep.join(l)] *)
Fixpoint join (sep : string) (l : list string) : string :=
  match l with
  | [] => ""
  | [x] => x
  | x :: r => x ++ sep ++ join sep r
  end.

(** [x in l] on a list of strings *)
Definition contains (x : string) (l : list string) : bool :=
  bool_decide (x ∈ l).

(** [l.index(x)]: the position of the first occurrence, if any. *)
Fixpoint index_of (x : string) (l : list string) : option nat :=
  match l with
  | [] => None
  | y :: r => if String.eqb y x then Some 0 else S <$> index_of x r
  end.

End Py.

(** ** Exceptions and the error monad *)

Inductive exn_class :=
  | UnknownTimeZoneError
  | TypeError
  | ValueError
  | KeyError
  | IndexError
  | OverflowError
  | ParserError.

Global Instance exn_class_eq_dec : EqDecision exn_class.
Proof. solve_decision. Defined.

(** An exception: its class and [e.args[0]]. *)
Record exn := Exn { exn_cls : exn_class; exn_arg : string }.

Global Instance exn_eq_dec : EqDecision exn.
Proof. solve_decision. Defined.

Inductive res (A : Type) :=
  | Ok (a : A)
  | Raise (e : exn).
Arguments Ok {A} a.
Arguments Raise {A} e.

Definition bind {A B} (m : res A) (k : A → res B) : res B :=
  match m with
  | Ok a => k a
  | Raise e => Raise e
  end.

Notation "'let!' x ':=' m 'in' k" := (bind m (fun x => k))
  (at level 10, x pattern, m at level 100, k at level 200).

(** [l[i]] on a list: [IndexError] out of range. *)
Definition getitem {A} (l : list A) (i : nat) : res A :=
  match l !! i with
  | Some a => Ok a
  | None => Raise (Exn IndexError "list index out of range")
  end.

(** [d[k]] on a dictionary with string keys: [KeyError(k)] when absent. *)
Definition dict_get {A} (d : gmap string A) (k : string) : res A :=
  match d !! k with
  | Some a => Ok a
  | None => Raise (Exn KeyError k)
  end.

(** ** Dates

    A [datetime.datetime] is kept in the form Python adds in: the proleptic
    Gregorian ordinal of its date, the seconds since midnight, the
    microseconds, and the attached tzinfo, if any. *)

Section Datetime.

Context {tzinfo : Type}.

Record datetime := Datetime {
  dt_ordinal : Z;
  dt_seconds : Z;
  dt_microseconds : Z;
  dt_tzinfo : option tzinfo;
}.

(** [timedelta(days=d, seconds=s)], normalised so that [0 <= seconds < 86400]. *)
Record timedelta_t := Timedelta { td_days : Z; td_seconds : Z }.

Definition timedelta (days seconds : Z) : timedelta_t :=
  Timedelta (days + seconds / 86400)%Z (seconds mod 86400)%Z.

Definition MAXORDINAL : Z := 3652059.

(** [datetime.__add__]: wall-clock arithmetic, tzinfo kept,
    [OverflowError] outside years 1..9999. *)
Definition datetime_add (d : datetime) (t : timedelta_t) : res datetime :=
  let secs := (dt_seconds d + td_seconds t)%Z in
  let days := (dt_ordinal d + td_days t + secs / 86400)%Z in
  if ((0 <? days) && (days <=? MAXORDINAL))%Z
  then Ok (Datetime days (secs mod 86400)%Z (dt_microseconds d) (dt_tzinfo d))
  else Raise (Exn OverflowError "date value out of range").

End Datetime.
Arguments datetime : clear implicits.

(** ** The event built from a row *)

Section Item.

Context {tzinfo : Type}.

Record dates_t := Dates {
  dates_start : datetime tzinfo;
  dates_end : datetime tzinfo;
  dates_tz : string;
}.

Record occur_status_t := OccurStatus {
  occur_qcode : string;
  occur_name : string;
  occur_label : string;
}.

Record calendar_t := Calendar {
  cal_is_active : bool;
  cal_name : string;
  cal_qcode : string;
}.

Record address_t := Address {
  addr_line : list string;
  addr_locality : string;
  addr_area : string;
  addr_country : string;
}.

Record location_t := Location {
  loc_name : string;
  loc_address : address_t;
}.

Record contact_phone_t := ContactPhone {
  phone_number : string;
  phone_public : bool;
  phone_usage : string;
}.

Record contact_t := Contact {
  contact_honorific : string;
  contact_first_name : string;
  contact_last_name : string;
  contact_organisation : string;
  contact_email : list string;
  contact_phone : list contact_phone_t;
}.

(** The dictionary [item].  The keys that are set conditionally
    ('calendars', 'location', 'contact') are options; 'status' holds
    [is_updated], which may be [None]. *)
Record item_t := Item {
  item_type : string;
  item_name : string;
  item_slugline : string;
  item_dates : dates_t;
  item_occur_status : occur_status_t;
  item_definition_short : string;
  item_definition_long : string;
  item_internal_note : string;
  item_ednote : string;
  item_links : list string;
  item_guid : string;
  item_status : option string;
  item_version : nat;
  item_calendars : option (list calendar_t);
  item_location : option (list location_t);
  item_contact : option contact_t;
  item_state : string;
}.

(** Truth value of [item.get(field)] for the keys of [required_field]. *)
Definition item_get_truthy (item : item_t) (field : string) : bool :=
  if String.eqb field "slugline" then Py.truthy (item_slugline item)
  else if String.eqb field "name" then Py.truthy (item_name item)
  else if String.eqb field "calendars" then
    match item_calendars item with
    | Some (_ :: _) => true
    | _ => false
    end
  else false.

End Item.
Arguments dates_t : clear implicits.
Arguments item_t : clear implicits.

(** [gspread.Cell(row, col, value)], 1-based coordinates. *)
Record Cell := mkCell { cell_row : nat; cell_col : nat; cell_value : string }.

Global Instance Cell_eq_dec : EqDecision Cell.
Proof. solve_decision. Defined.

(** Calls made on the worksheet, in order. *)
Inductive ws_call :=
  | add_cols (n : nat)
  | update_cell (row col : nat) (value : string)
  | update_cells (cells : list Cell).

(** ** Class attributes of [SpreadsheetFeedingService] *)

Definition self_titles : list string := [
  "Start date"; "Start time"; "End date"; "End time"; "All day"; "Timezone"; "Slugline"; "Event name";
  "Description"; "Occurence status"; "Calendars"; "Location Name"; "Location Address"; "Location City/Town";
  "Location State/Province/Region"; "Location Country"; "Contact Honorific"; "Contact First name";
  "Contact Last name"; "Contact Organisation"; "Contact Point of Contact"; "Contact Email";
  "Contact Phone Number"; "Contact Phone Usage"; "Contact Phone Public"; "Long description"; "Internal note";
  "Ed note"; "External links"
].

Definition required_field : list string := ["slugline"; "calendars"; "name"].

Definition required_contact_field : list string := ["Contact Email"; "Contact Phone Number"].

Definition required_location_field : list string :=
  ["Location Name"; "Location Address"; "Location Country"].

Definition occur_status_qcode_mapping : gmap string string :=
  list_to_map [
    ("Unplanned event", "eocstat:eos0");
    ("Planned, occurrence planned only", "eocstat:eos1");
    ("Planned, occurrence highly uncertain", "eocstat:eos2");
    ("Planned, May occur", "eocstat:eos3");
    ("Planned, occurrence highly likely", "eocstat:eos4");
    ("Planned, occurs certainly", "eocstat:eos5")
  ].

Definition bookkeeping_fields : list string := ["_STATUS"; "_ERR_MESSAGE"; "_GUID"].

(** [ParserError.parseFileError()] *)
Definition parseFileError : exn := Exn ParserError "parseFileError".

(** [ITEM_STATE] and [CONTENT_STATE.DRAFT] of superdesk.metadata.item. *)
Definition ITEM_STATE : string := "state".
Definition CONTENT_STATE_DRAFT : string := "draft".

(** ** [SpreadsheetFeedingService._update] *)

Section Update.

(** The tzinfo objects of pytz. *)
Context {tzinfo : Type}.

(** [pytz.timezone(name)]; [None] stands for [UnknownTimeZoneError(name)]. *)
Variable timezone : string → option tzinfo.
(** [tz.localize(dt)] *)
Variable localize : tzinfo → datetime tzinfo → res (datetime tzinfo).
(** [dateutil.parser.parse(s)] *)
Variable parse : string → res (datetime tzinfo).
(** [str(get_localzone())] *)
Variable get_localzone : string.
(** Truth value of [superdesk.get_resource_service('events').find_one(guid=guid, req=None)]. *)
Variable find_one : string → bool.
(** [generate_guid(type=GUID_NEWSML)]: the identifier returned by the n-th call. *)
Variable generate_guid : nat → string.

Abbreviation item := (item_t tzinfo).

(** *** Column lookup *)

(** [l.index(x)], [ValueError] when absent. *)
Definition list_index (l : list string) (x : string) : res nat :=
  match Py.index_of x l with
  | Some i => Ok i
  | None => Raise (Exn ValueError (x ++ " is not in list"))
  end.

(** The loop over [self.titles]; [titles] is the local list of lowered
    and stripped header titles. *)
Fixpoint lookup_titles (fields : list string) (titles : list string)
    (index : gmap string nat) : res (gmap string nat) :=
  match fields with
  | [] => Ok index
  | field :: rest =>
      if negb (Py.contains (Py.strip (Py.lower field)) titles) then Raise parseFileError
      else
        let! i := list_index titles (Py.strip (Py.lower field)) in
        lookup_titles rest titles (<[field := i]> index)
  end.

(** The loop over ('_STATUS', '_ERR_MESSAGE', '_GUID'): a missing
    bookkeeping title is appended and written to the header row. *)
Fixpoint lookup_bookkeeping (fields : list string) (titles : list string)
    (index : gmap string nat) (calls : list ws_call)
    : res (list string * gmap string nat * list ws_call) :=
  match fields with
  | [] => Ok (titles, index, calls)
  | field :: rest =>
      let '(titles, calls) :=
        if negb (Py.contains (Py.lower field) titles)
        then ((titles ++ [Py.lower field])%list,
              (calls ++ [update_cell 1 (length (titles ++ [Py.lower field])%list) field])%list)
        else (titles, calls) in
      let! i := list_index titles (Py.lower field) in
      lookup_bookkeeping rest titles (<[field := i]> index) calls
  end.

(** Everything before the row loop: the index and the worksheet calls made. *)
Definition resolve_index (data : list (list string)) (total_col : nat)
    : res (gmap string nat * list ws_call) :=
  let! header := getitem data 0 in
  let titles := map (fun s => Py.strip (Py.lower s)) header in
  let! index := lookup_titles self_titles titles ∅ in
  let calls :=
    if total_col <? length titles + 3
    then [add_cols (length titles + 3 - total_col)]
    else [] in
  let! r := lookup_bookkeeping bookkeeping_fields titles index calls in
  Ok (r.1.2, r.2).

(** *** One row *)

Record loop_state := LoopState {
  items : list item;
  cells_list : list Cell;
  guid_calls : nat;
}.

(** [values[index[field]]] *)
Definition cell (index : gmap string nat) (values : list string) (field : string)
    : res string :=
  let! i := dict_get index field in
  getitem values i.

(** [all(values[index[field]] for field in fields)] *)
Fixpoint all_cells (index : gmap string nat) (values : list string)
    (fields : list string) : res bool :=
  match fields with
  | [] => Ok true
  | field :: rest =>
      let! v := cell index values field in
      if Py.truthy v then all_cells index values rest else Ok false
  end.

(** [not is_updated or is_updated in ('UPDATED', 'ERROR')] *)
Definition eligible (is_updated : option string) : bool :=
  match is_updated with
  | None => true
  | Some s => negb (Py.truthy s) || String.eqb s "UPDATED" || String.eqb s "ERROR"
  end.

(** Lines 154-162: the timezone name and the start and end instants. *)
Definition row_dates (index : gmap string nat) (values : list string)
    : res (dates_t tzinfo) :=
  let! tzcell := cell index values "Timezone" in
  let tzone := if negb (String.eqb tzcell "none") then tzcell else get_localzone in
  let! tz :=
    match timezone tzone with
    | Some z => Ok z
    | None => Raise (Exn UnknownTimeZoneError tzone)
    end in
  let! start_date := cell index values "Start date" in
  let! start_time := cell index values "Start time" in
  let! parsed_start := parse (start_date ++ " " ++ start_time) in
  let! start_datetime := localize tz parsed_start in
  let! end_date := cell index values "End date" in
  let! all_day := cell index values "All day" in
  let! end_datetime :=
    if String.eqb all_day "TRUE" then
      let! start_date := cell index values "Start date" in
      let! parsed := parse start_date in
      let! localized := localize tz parsed in
      datetime_add localized (timedelta 1 (-1))
    else
      let! end_time := cell index values "End time" in
      let! parsed := parse (end_date ++ " " ++ end_time) in
      localize tz parsed in
  Ok (Dates start_datetime end_datetime tzone).

(** Lines 194-203: the value of [item['location']], if the key is set. *)
Definition row_location (index : gmap string nat) (values : list string)
    : res (option (list location_t)) :=
  let! has_location := all_cells index values required_location_field in
  if has_location then
    let! name := cell index values "Location Name" in
    let! line := cell index values "Location Address" in
    let! locality := cell index values "Location City/Town" in
    let! area := cell index values "Location State/Province/Region" in
    let! country := cell index values "Location Country" in
    Ok (Some [Location name (Address [line] locality area country)])
  else Ok None.

(** Lines 204-222: the value of [item['contact']], if the key is set. *)
Definition row_contact (index : gmap string nat) (values : list string)
    : res (option contact_t) :=
  let! has_required := all_cells index values required_contact_field in
  let! has_contact :=
    if has_required then
      let! has_names := all_cells index values ["Contact First name"; "Contact Last name"] in
      if has_names then Ok true
      else
        let! organisation := cell index values "Contact Organisation" in
        Ok (Py.truthy organisation)
    else Ok false in
  if has_contact then
    let! phone_public := cell index values "Contact Phone Public" in
    let is_public := String.eqb phone_public "TRUE" in
    let! phone_usage := cell index values "Contact Phone Usage" in
    let is_public := if String.eqb phone_usage "Confidential" then false else is_public in
    let! honorific := cell index values "Contact Honorific" in
    let! first_name := cell index values "Contact First name" in
    let! last_name := cell index values "Contact Last name" in
    let! organisation := cell index values "Contact Organisation" in
    let! email := cell index values "Contact Email" in
    let! number := cell index values "Contact Phone Number" in
    let! usage := cell index values "Contact Phone Usage" in
    Ok (Some (Contact honorific first_name last_name organisation [email]
                [ContactPhone number is_public usage]))
  else Ok None.

(** [[field for field in self.required_field if not item.get(field)]] *)
Definition missing_fields (item : item) : list string :=
  List.filter (fun field => negb (item_get_truthy item field)) required_field.

(** Lines 225-239: the value left in [error_message] and the loop state. *)
Definition commit (index : gmap string nat) (row : nat) (guid : string)
    (is_updated : option string) (item : item) (st : loop_state)
    : res (option string * loop_state) :=
  match missing_fields item with
  | _ :: _ =>
      let missing_fields := Py.join ", " (missing_fields item) in
      Ok (Some ("Missing " ++ missing_fields ++ " fields"), st)
  | [] =>
      if eligible is_updated then
        let! i_status := dict_get index "_STATUS" in
        let! i_message := dict_get index "_ERR_MESSAGE" in
        let! i_guid := dict_get index "_GUID" in
        Ok (None,
            LoopState (items st ++ [item])%list
              (cells_list st ++ [mkCell row (i_status + 1) "DONE";
                                 mkCell row (i_message + 1) "";
                                 mkCell row (i_guid + 1) guid])%list
              (guid_calls st))
      else Ok (None, st)
  end.

(** Lines 153-223: the event of the row. *)
Definition build_item (index : gmap string nat) (values : list string)
    (guid : string) (is_updated : option string) : res item :=
  let! dates := row_dates index values in
  let! name := cell index values "Event name" in
  let! slugline := cell index values "Slugline" in
  let! occur := cell index values "Occurence status" in
  let! qcode := dict_get occur_status_qcode_mapping occur in
  let! definition_short := cell index values "Description" in
  let! definition_long := cell index values "Long description" in
  let! internal_note := cell index values "Internal note" in
  let! ednote := cell index values "Ed note" in
  let! links := cell index values "External links" in
  let! calendars := cell index values "Calendars" in
  let item_calendars :=
    if Py.truthy calendars
    then Some [Calendar true calendars (Py.lower calendars)]
    else None in
  let! item_location := row_location index values in
  let! item_contact := row_contact index values in
  Ok (Item "event" name slugline dates
        (OccurStatus qcode occur (Py.lower occur))
        definition_short definition_long internal_note ednote [links]
        guid is_updated 1 item_calendars item_location item_contact
        CONTENT_STATE_DRAFT).

(** The body of the [try] statement (lines 153-239).  It returns the
    event it built, the value left in [error_message], and the loop
    state. *)
Definition try_body (index : gmap string nat) (values : list string) (row : nat)
    (guid : string) (is_updated : option string) (st : loop_state)
    : res (item * option string * loop_state) :=
  let! item := build_item index values guid is_updated in
  let! r := commit index row guid is_updated item st in
  Ok (item, r.1, r.2).

(** [is_updated]: the status cell, stripped and upper-cased, or [None] when
    the row ends before that column. *)
Definition read_status (index : gmap string nat) (values : list string)
    : res (option string) :=
  let! i_status := dict_get index "_STATUS" in
  if length values <? i_status + 1 then Ok None
  else
    let! s := getitem values i_status in
    Ok (Some (Py.upper (Py.strip s))).

(** The condition [len(values) - 1 > index['_GUID'] and values[index['_GUID']]]. *)
Definition guid_present (index : gmap string nat) (values : list string) : res bool :=
  let! i_guid := dict_get index "_GUID" in
  if (Z.of_nat (length values) - 1 >? Z.of_nat i_guid)%Z then
    let! g := getitem values i_guid in
    Ok (Py.truthy g)
  else Ok false.

(** The identifier of the row: the one in the sheet, which must be known
    to the events resource, or a fresh one. *)
Definition determine_guid (index : gmap string nat) (values : list string)
    (st : loop_state) : res (string * loop_state) :=
  let! present := guid_present index values in
  if present then
    let! guid := cell index values "_GUID" in
    if negb (find_one guid) then Raise (Exn KeyError "GUID is not exists")
    else Ok (guid, st)
  else
    Ok (generate_guid (guid_calls st),
        LoopState (items st) (cells_list st) (S (guid_calls st))).

(** The classes named by [except (TypeError, ValueError, KeyError)]. *)
Definition caught (c : exn_class) : bool :=
  match c with
  | TypeError | ValueError | KeyError => true
  | _ => false
  end.

(** The [try] statement with its two [except] clauses: the value of
    [error_message] and the loop state after it.  The first clause logs
    [values[index['Event name']]]. *)
Definition try_except (index : gmap string nat) (values : list string) (row : nat)
    (guid : string) (is_updated : option string) (st : loop_state)
    : res (option string * loop_state) :=
  match try_body index values row guid is_updated st with
  | Ok (_, error_message, st') => Ok (error_message, st')
  | Raise e =>
      match exn_cls e with
      | UnknownTimeZoneError =>
          let! _ := cell index values "Event name" in
          Ok (Some "Invalid timezone", st)
      | c => if caught c then Ok (Some (exn_arg e), st) else Raise e
      end
  end.

(** [if error_message: cells_list.extend([...])] *)
Definition record_error (index : gmap string nat) (row : nat)
    (error_message : option string) (st : loop_state) : res loop_state :=
  match error_message with
  | Some message =>
      if Py.truthy message then
        let! i_status := dict_get index "_STATUS" in
        let! i_message := dict_get index "_ERR_MESSAGE" in
        Ok (LoopState (items st)
              (cells_list st ++ [mkCell row (i_status + 1) "ERROR";
                                 mkCell row (i_message + 1) message])%list
              (guid_calls st))
      else Ok st
  | None => Ok st
  end.

(** One iteration of [for row in range(3, len(data) + 1)]. *)
Definition row_step (index : gmap string nat) (data : list (list string))
    (row : nat) (st : loop_state) : res loop_state :=
  let! values := getitem data (row - 1) in
  let! is_updated := read_status index values in
  let! gs := determine_guid index values st in
  let! es := try_except index values row gs.1 is_updated gs.2 in
  record_error index row es.1 es.2.

(** The loop; [if not row: break] leaves it at row 0. *)
Fixpoint rows_loop (index : gmap string nat) (data : list (list string))
    (rows : list nat) (st : loop_state) : res loop_state :=
  match rows with
  | [] => Ok st
  | row :: rest =>
      if row =? 0 then Ok st
      else
        let! st' := row_step index data row st in
        rows_loop index data rest st'
  end.

(** [range(3, len(data) + 1)] *)
Definition data_rows (data : list (list string)) : list nat :=
  seq 3 (length data + 1 - 3).

(** [_update]: the calls made on the worksheet, and the value returned or
    the exception that leaves the method.  [data] is the result of
    [worksheet.get_all_values()], [total_col] is [worksheet.col_count]. *)
Definition _update (data : list (list string)) (total_col : nat)
    : list ws_call * res (list (list item)) :=
  match resolve_index data total_col with
  | Raise e => ([], Raise e)
  | Ok (index, calls) =>
      match rows_loop index data (data_rows data) (LoopState [] [] 0) with
      | Raise e => (calls, Raise e)
      | Ok st =>
          let calls :=
            match cells_list st with
            | _ :: _ => (calls ++ [update_cells (cells_list st)])%list
            | [] => calls
            end in
          (calls, Ok [items st])
      end
  end.

End Update.

Arguments LoopState {tzinfo} _ _ _.
Arguments items {tzinfo} _.
Arguments cells_list {tzinfo} _.
Arguments guid_calls {tzinfo} _.

(** The text of a cell, empty when the row has no such cell. *)
Definition cell_text (index : gmap string nat) (values : list string)
    (field : string) : string :=
  match cell index values field with
  | Ok v => v
  | Raise _ => ""
  end.

(** ** A concrete instance of the libraries

    A two-zone timezone database, a parser that knows a few dates, and an
    identifier generator, to run the service on sample sheets. *)

Module Sample.

Definition timezone (name : string) : option string :=
  if bool_decide (name ∈ ["UTC"; "Europe/Brussels"]) then Some name else None.

Definition localize (z : string) (d : datetime string) : res (datetime string) :=
  match dt_tzinfo d with
  | Some _ => Raise (Exn ValueError "Not naive datetime (tzinfo is already set)")
  | None => Ok (Datetime (dt_ordinal d) (dt_seconds d) (dt_microseconds d) (Some z))
  end.

(** 2024-01-10 has ordinal 738895. *)
Definition parse (s : string) : res (datetime string) :=
  if String.eqb s "2024-01-10" then Ok (Datetime 738895 0 0 None)
  else if String.eqb s "2024-01-10 10:00" then Ok (Datetime 738895 36000 0 None)
  else if String.eqb s "2024-01-10 12:00" then Ok (Datetime 738895 43200 0 None)
  else Raise (Exn ValueError "Unknown string format").

Definition generate_guid (n : nat) : string :=
  "urn:newsml:" ++ String (ascii_of_nat (48 + n)) "".

(** A header row with the bookkeeping columns last. *)
Definition header : list string :=
  (self_titles ++ bookkeeping_fields)%list.

(** A valid row: timed event in UTC, no location, no contact, bookkeeping
    cells empty. *)
Definition valid_row : list string := [
  "2024-01-10"; "10:00"; "2024-01-10"; "12:00"; "FALSE"; "UTC"; "slug"; "Event";
  "desc"; "Unplanned event"; "Sports"; ""; ""; ""; ""; ""; ""; ""; ""; ""; ""; "";
  ""; ""; ""; "long"; "note"; "ed"; "http://x"; ""; ""; ""
].

(** [valid_row] with the cell at position [i] replaced. *)
Definition with_cell (i : nat) (v : string) (values : list string) : list string :=
  <[i := v]> values.

(** The index of [header], as the service resolves it. *)
Definition index : gmap string nat :=
  match resolve_index [header] 40 with
  | Ok (index, _) => index
  | Raise _ => ∅
  end.

(** The body of the [try] statement on row 3 of a sheet, for a row whose
    status cell is missing, and the event it builds. *)
Abbreviation body values :=
  (try_body timezone localize parse "Europe/Brussels" index values 3
     "urn:newsml:sample" None (LoopState [] [] 0)).



(** A row with a contact: organisation, e-mail, phone, confidential usage,
    public flag set. *)
Definition contact_row : list string :=
  with_cell 19 "Belga" (with_cell 21 "desk@example.org" (with_cell 22 "+32 2 000"
    (with_cell 23 "Confidential" (with_cell 24 "TRUE" valid_row)))).

(** A row without calendar, a row with an unknown timezone, a row that
    ends before the Timezone column. *)
Definition no_calendar_row : list string := with_cell 10 "" valid_row.
Definition bad_timezone_row : list string := with_cell 5 "Mars/Olympus" valid_row.
Definition short_row : list string := take 5 valid_row.

(** A row marked UPDATED that carries an identifier in its last cell. *)
Definition updated_row : list string :=
  with_cell 29 "UPDATED" (with_cell 31 "urn:newsml:known" valid_row).

(** A sheet with one more column after the bookkeeping columns, and a row
    of it that carries an identifier. *)
Definition wide_header : list string := (header ++ ["Remarks"])%list.
Definition wide_row (guid : string) : list string :=
  (with_cell 31 guid valid_row ++ ["seen"])%list.

(** A sheet: the titles, the second header row, the data rows. *)
Definition sheet (head : list string) (rows : list (list string))
    : list (list string) :=
  head :: [] :: rows.

(** An events resource that knows every identifier, and one that knows none. *)
Definition all_known (guid : string) : bool := true.
Definition none_known (guid : string) : bool := false.

(** One iteration of the loop on a sheet of [header]. *)
Abbreviation step find_one data row st :=
  (row_step timezone localize parse "Europe/Brussels" find_one generate_guid
     index data row st).

Abbreviation build values guid is_updated :=
  (build_item timezone localize parse "Europe/Brussels" index values guid is_updated).

(** The identifiers of the events a run returns. *)
Definition guids (result : res (list (list (item_t string)))) : res (list (list string)) :=
  match result with
  | Ok returned => Ok (map (map item_guid) returned)
  | Raise e => Raise e
  end.

(** The service run on a sheet of 40 columns. *)
Definition run (find_one : string → bool) (data : list (list string)) :=
  _update timezone localize parse "Europe/Brussels" find_one generate_guid data 40.

End Sample.

(** The columns read for the dates of the event, and the other titled
    columns. *)
Definition date_fields : list string :=
  ["Timezone"; "Start date"; "Start time"; "End date"; "All day"; "End time"].

Definition detail_fields : list string :=
  List.filter (fun f => negb (bool_decide (f ∈ date_fields))) self_titles.

(** The exception of an out-of-range [values[i]]. *)
Definition index_error : exn := Exn IndexError "list index out of range".

(** [r'] is [r], unless [r] is an out-of-range read: how the result of a
    computation on a row relates to its result on the row with more cells. *)
Definition refines {A} (r r' : res A) : Prop :=
  r = Raise index_error ∨ r' = r.

(** * Properties *)

Lemma bind_inv_Ok {A B} (m : res A) (k : A → res B) (b : B) :
  bind m k = Ok b → ∃ a, m = Ok a ∧ k a = Ok b.
Proof. destruct m as [a|e]; simpl; [eauto | discriminate]. Qed.

Lemma bind_inv_Raise {A B} (m : res A) (k : A → res B) (e : exn) :
  bind m k = Raise e → m = Raise e ∨ ∃ a, m = Ok a ∧ k a = Raise e.
Proof. destruct m as [a|e']; simpl; [eauto | intros [= ->]; auto]. Qed.

(** Split a successful chain of binds into its steps. *)
Ltac inv_binds H :=
  repeat (apply bind_inv_Ok in H; destruct H as (? & ? & H); cbv beta zeta in H).

Lemma truthy_spec (s : string) : Py.truthy s = true ↔ s ≠ "".
Proof. destruct s; simpl; split; congruence. Qed.

Lemma truthy_false (s : string) : Py.truthy s = false ↔ s = "".
Proof. destruct s; simpl; split; congruence. Qed.

Lemma cell_text_Ok index values field v :
  cell index values field = Ok v → cell_text index values field = v.
Proof. unfold cell_text. now intros ->. Qed.

(** ** The column index *)

(** Every key of [index]: the titles and the bookkeeping fields. *)
Definition all_fields : list string := (self_titles ++ bookkeeping_fields)%list.

(** [index] maps each of its keys to a position of [titles] holding the
    lowered, stripped key. *)
Definition points_into (titles : list string) (index : gmap string nat) : Prop :=
  ∀ f i, index !! f = Some i → titles !! i = Some (Py.strip (Py.lower f)).

Lemma index_of_lookup x l i : Py.index_of x l = Some i → l !! i = Some x.
Proof.
  revert i. induction l as [|y l IH]; simpl; intros i H; [discriminate|].
  destruct (String.eqb_spec y x) as [->|Hne].
  - now injection H as <-.
  - destruct (Py.index_of x l) as [j|]; simpl in H; [|discriminate].
    injection H as <-. simpl. now apply IH.
Qed.

Lemma list_index_lookup l x i : list_index l x = Ok i → l !! i = Some x.
Proof.
  unfold list_index. destruct (Py.index_of x l) eqn:E; [|discriminate].
  intros [= <-]. now apply index_of_lookup.
Qed.

Lemma points_into_app titles extra index :
  points_into titles index → points_into (titles ++ extra) index.
Proof.
  intros H f i Hf. apply H in Hf.
  rewrite lookup_app_l; [assumption|]. now apply lookup_lt_Some in Hf.
Qed.

Lemma points_into_insert titles index f i :
  points_into titles index → titles !! i = Some (Py.strip (Py.lower f)) →
  points_into titles (<[f := i]> index).
Proof.
  intros H Hi g j. destruct (decide (f = g)) as [<-|Hne].
  - rewrite lookup_insert_eq. now intros [= <-].
  - rewrite lookup_insert_ne by assumption. apply H.
Qed.

Lemma lookup_titles_spec fields titles index0 index :
  lookup_titles fields titles index0 = Ok index →
  points_into titles index0 →
  points_into titles index ∧
  (∀ f, f ∈ fields ∨ is_Some (index0 !! f) → is_Some (index !! f)).
Proof.
  revert index0. induction fields as [|field fields IH]; simpl; intros index0 H Hp.
  - injection H as <-. split; [assumption|]. intros f [Hf|Hf]; [|assumption].
    now apply elem_of_nil in Hf.
  - destruct (Py.contains _ titles); simpl in H; [|discriminate].
    apply bind_inv_Ok in H. destruct H as (i & Hi & H).
    apply list_index_lookup in Hi.
    apply IH in H; [|now apply points_into_insert].
    destruct H as [Hp' Hdom]. split; [assumption|].
    intros f Hf. apply Hdom. rewrite elem_of_cons in Hf.
    destruct (decide (field = f)) as [<-|Hne].
    + right. rewrite lookup_insert_eq. eauto.
    + rewrite lookup_insert_ne by assumption. destruct Hf as [[Hf|Hf]|Hf]; auto.
      congruence.
Qed.

(** A worksheet call of the header phase: more columns, or a title
    written in row 1; never a batch of cells. *)
Definition header_call (c : ws_call) : Prop :=
  match c with
  | add_cols _ => True
  | update_cell row _ _ => row = 1
  | update_cells _ => False
  end.

Lemma lookup_bookkeeping_spec fields titles0 index0 calls0 titles index calls :
  lookup_bookkeeping fields titles0 index0 calls0 = Ok (titles, index, calls) →
  (∀ f, f ∈ fields → Py.lower f = Py.strip (Py.lower f)) →
  points_into titles0 index0 →
  Forall header_call calls0 →
  points_into titles index ∧
  (∀ f, f ∈ fields ∨ is_Some (index0 !! f) → is_Some (index !! f)) ∧
  Forall header_call calls.
Proof.
  revert titles0 index0 calls0.
  induction fields as [|field fields IH]; simpl; intros titles0 index0 calls0 H Hn Hp Hc.
  - injection H as <- <- <-. repeat split; try assumption.
    intros f [Hf|Hf]; [|assumption]. now apply elem_of_nil in Hf.
  - destruct (negb (Py.contains (Py.lower field) titles0)).
    + apply bind_inv_Ok in H. destruct H as (i & Hi & H).
      apply list_index_lookup in Hi.
      apply IH in H.
      * destruct H as (Hp' & Hdom & Hc'). repeat split; try assumption.
        intros f Hf. apply Hdom. rewrite elem_of_cons in Hf.
        destruct (decide (field = f)) as [<-|Hne].
        -- right. rewrite lookup_insert_eq. eauto.
        -- rewrite lookup_insert_ne by assumption.
           destruct Hf as [[Hf|Hf]|Hf]; auto. congruence.
      * intros f Hf. apply Hn. now right.
      * apply points_into_insert; [now apply points_into_app|].
        rewrite <- (Hn field) by left. assumption.
      * apply Forall_app. split; [assumption|]. now repeat constructor.
    + apply bind_inv_Ok in H. destruct H as (i & Hi & H).
      apply list_index_lookup in Hi.
      apply IH in H.
      * destruct H as (Hp' & Hdom & Hc'). repeat split; try assumption.
        intros f Hf. apply Hdom. rewrite elem_of_cons in Hf.
        destruct (decide (field = f)) as [<-|Hne].
        -- right. rewrite lookup_insert_eq. eauto.
        -- rewrite lookup_insert_ne by assumption.
           destruct Hf as [[Hf|Hf]|Hf]; auto. congruence.
      * intros f Hf. apply Hn. now right.
      * apply points_into_insert; [assumption|].
        rewrite <- (Hn field) by left. assumption.
      * assumption.
Qed.

(** The index computed from the header row has every field as a key, and
    maps the fields to positions of one list of distinct-by-position
    titles; the calls made so far are header calls. *)
Lemma resolve_index_spec data total_col index calls :
  resolve_index data total_col = Ok (index, calls) →
  (∃ titles, points_into titles index) ∧
  (∀ f, f ∈ all_fields → is_Some (index !! f)) ∧
  Forall header_call calls.
Proof.
  unfold resolve_index. intros H.
  apply bind_inv_Ok in H. destruct H as (header & _ & H).
  apply bind_inv_Ok in H. destruct H as (index1 & H1 & H).
  apply bind_inv_Ok in H. destruct H as ([[titles index2] calls2] & H2 & H).
  simpl in H. injection H as <- <-.
  apply lookup_titles_spec in H1; [|intros f i; rewrite lookup_empty; discriminate].
  destruct H1 as [Hp1 Hdom1].
  apply lookup_bookkeeping_spec in H2; try assumption.
  - destruct H2 as (Hp2 & Hdom2 & Hc2). split; [eauto|]. split; [|assumption].
    intros f Hf. apply Hdom2. unfold all_fields in Hf. rewrite elem_of_app in Hf.
    destruct Hf as [Hf|Hf]; auto.
  - intros f Hf. unfold bookkeeping_fields in Hf.
    repeat (apply elem_of_cons in Hf; destruct Hf as [->|Hf]; [reflexivity|]).
    now apply elem_of_nil in Hf.
  - destruct (_ <? _); now repeat constructor.
Qed.

(** Lowering and stripping keeps the fields apart. *)
Lemma normalised_fields_distinct f g :
  f ∈ all_fields → g ∈ all_fields →
  Py.strip (Py.lower f) = Py.strip (Py.lower g) → f = g.
Proof.
  assert (H : Forall (fun f => Forall (fun g =>
            Py.strip (Py.lower f) = Py.strip (Py.lower g) → f = g) all_fields) all_fields).
  { apply (bool_decide_unpack _). vm_compute. exact I. }
  intros Hf Hg. rewrite Forall_forall in H. specialize (H f Hf).
  rewrite Forall_forall in H. exact (H g Hg).
Qed.

(** Two different fields never share a column. *)
Lemma resolved_columns_distinct data total_col index calls f g i :
  resolve_index data total_col = Ok (index, calls) →
  f ∈ all_fields → g ∈ all_fields → f ≠ g →
  index !! f = Some i → index !! g ≠ Some i.
Proof.
  intros H Hf Hg Hne Hi Hj. apply resolve_index_spec in H.
  destruct H as ((titles & Hp) & _ & _).
  apply Hp in Hi. apply Hp in Hj. rewrite Hi in Hj. injection Hj as Hj.
  now apply Hne, normalised_fields_distinct.
Qed.

(** ** The header phase *)




Lemma index_of_None x l : x ∉ l → Py.index_of x l = None.
Proof.
  intros Hnot. destruct (Py.index_of x l) as [i|] eqn:E; [|reflexivity].
  apply index_of_lookup in E. exfalso. apply Hnot. apply list_elem_of_lookup. eauto.
Qed.

















(** ** Reading a row and a longer or updated row *)

Lemma refines_refl {A} (r : res A) : refines r r.
Proof. now right. Qed.

Lemma bind_refines {A B} (m m' : res A) (k k' : A → res B) :
  refines m m' → (∀ a, refines (k a) (k' a)) → refines (bind m k) (bind m' k').
Proof.
  intros [->| ->] Hk; [now left|].
  destruct m as [a|e]; simpl; [apply Hk | now right].
Qed.

Lemma refines_Ok {A} (r r' : res A) a : refines r r' → r = Ok a → r' = Ok a.
Proof. intros [->| ->]; [discriminate | auto]. Qed.


Lemma cell_insert_ne index values i a f :
  index !! f ≠ Some i → cell index (<[i := a]> values) f = cell index values f.
Proof.
  intros H. unfold cell, dict_get. destruct (index !! f) as [j|]; simpl; [|reflexivity].
  unfold getitem. rewrite list_lookup_insert_ne; [reflexivity | congruence].
Qed.

Lemma cell_insert_eq index values i a f v :
  index !! f = Some i → cell index values f = Ok v →
  cell index (<[i := a]> values) f = Ok a.
Proof.
  intros Hi. unfold cell, dict_get. rewrite Hi. simpl. unfold getitem.
  destruct (values !! i) eqn:E; [|discriminate]. intros _.
  rewrite list_lookup_insert_eq; [reflexivity | now apply lookup_lt_Some in E].
Qed.

(** Decide membership in a list of field names. *)
Ltac field_in := apply (bool_decide_unpack _); vm_compute; exact I.

(** Compare two runs of the same chain of reads, step by step. *)
Ltac refines_chain H :=
  repeat match goal with
    | |- refines ?r ?r => apply refines_refl
    | |- refines (cell _ _ _) (cell _ _ _) => apply H; field_in
    | |- refines (bind _ _) (bind _ _) => apply bind_refines; [ | intros ? ]
    | |- refines (if ?b then _ else _) _ => destruct b
    | |- refines (match ?o with _ => _ end) _ => destruct o
    | |- refines _ _ => eassumption
    end.

Section Refinement.

Variables (index : gmap string nat) (values values' : list string).


Hypothesis agree : ∀ f, f ∈ detail_fields →
  refines (cell index values f) (cell index values' f).



End Refinement.

(** ** The contact block *)

(** [all(...)] over cells, in terms of their text. *)
Lemma all_cells_spec index values fields b :
  all_cells index values fields = Ok b →
  b = forallb (fun f => Py.truthy (cell_text index values f)) fields.
Proof.
  revert b. induction fields as [|f fields IH]; simpl; intros b H.
  - congruence.
  - apply bind_inv_Ok in H. destruct H as (v & Hv & H).
    rewrite (cell_text_Ok _ _ _ _ Hv).
    destruct (Py.truthy v); simpl; [auto | congruence].
Qed.

Lemma row_contact_spec index values contact :
  row_contact index values = Ok contact →
  let nonempty f := cell_text index values f ≠ "" in
  (is_Some contact ↔
     nonempty "Contact Email" ∧ nonempty "Contact Phone Number" ∧
     ((nonempty "Contact First name" ∧ nonempty "Contact Last name") ∨
      nonempty "Contact Organisation")) ∧
  (∀ c, contact = Some c →
     ∃ p, contact_phone c = [p] ∧
       (phone_public p = true ↔
          cell_text index values "Contact Phone Public" = "TRUE" ∧
          cell_text index values "Contact Phone Usage" ≠ "Confidential")).
Proof.
  intros H nonempty. unfold row_contact in H.
  apply bind_inv_Ok in H. destruct H as (has_required & Hreq & H).
  apply bind_inv_Ok in H. destruct H as (has_contact & Hgate & H).
  apply all_cells_spec in Hreq. simpl in Hreq.
  assert (Hc : has_contact = true ↔
     nonempty "Contact Email" ∧ nonempty "Contact Phone Number" ∧
     ((nonempty "Contact First name" ∧ nonempty "Contact Last name") ∨
      nonempty "Contact Organisation")).
  { unfold nonempty. rewrite <- !truthy_spec.
    destruct has_required.
    - symmetry in Hreq. rewrite andb_true_r in Hreq.
      apply andb_prop in Hreq. destruct Hreq as [He Hp].
      apply bind_inv_Ok in Hgate. destruct Hgate as (has_names & Hnames & Hgate).
      apply all_cells_spec in Hnames. simpl in Hnames. rewrite andb_true_r in Hnames.
      destruct has_names.
      + symmetry in Hnames. apply andb_prop in Hnames.
        injection Hgate as <-. tauto.
      + apply bind_inv_Ok in Hgate. destruct Hgate as (org & Horg & Hgate).
        injection Hgate as <-. rewrite (cell_text_Ok _ _ _ _ Horg).
        symmetry in Hnames. apply andb_false_iff in Hnames.
        split; [tauto|]. intros (_ & _ & [[Hf Hl]|Ho]); [|assumption].
        destruct Hnames; congruence.
    - injection Hgate as <-. rewrite andb_true_r in Hreq.
      symmetry in Hreq. apply andb_false_iff in Hreq.
      split; [discriminate|]. intros (He & Hp & _). destruct Hreq; congruence. }
  destruct has_contact.
  - inv_binds H. injection H as <-. split.
    + split; [intros _; now apply Hc | intros _; eauto].
    + intros c [= <-]. eexists. split; [reflexivity|]. simpl.
      rewrite (cell_text_Ok _ _ _ _ H0), (cell_text_Ok _ _ _ _ H1).
      destruct (String.eqb_spec x0 "Confidential") as [->|Hne].
      * split; [discriminate | intros [_ Hn]; now destruct Hn].
      * rewrite String.eqb_eq. tauto.
  - injection H as <-. split.
    + split; [intros [? [=]] | intros Hn; apply Hc in Hn; discriminate].
    + intros c [=].
Qed.

(** The location block (lines 194-203). *)
Lemma row_location_spec index values location :
  row_location index values = Ok location →
  let text := cell_text index values in
  (is_Some location ↔
     text "Location Name" ≠ "" ∧ text "Location Address" ≠ "" ∧
     text "Location Country" ≠ "") ∧
  (∀ l, location = Some l →
     l = [Location (text "Location Name")
            (Address [text "Location Address"] (text "Location City/Town")
               (text "Location State/Province/Region") (text "Location Country"))]).
Proof.
  intros H text. unfold row_location in H.
  apply bind_inv_Ok in H. destruct H as (has_location & Hall & H).
  apply all_cells_spec in Hall. simpl in Hall. rewrite andb_true_r in Hall.
  fold text in Hall.
  assert (Hgate : has_location = true ↔
     text "Location Name" ≠ "" ∧ text "Location Address" ≠ "" ∧
     text "Location Country" ≠ "").
  { rewrite Hall, !andb_true_iff, !truthy_spec. tauto. }
  destruct has_location.
  - inv_binds H. injection H as <-. split.
    + split; [intros _; now apply Hgate | intros _; eauto].
    + intros l [= <-]. subst text.
      repeat match goal with
             | E : cell _ _ _ = Ok _ |- _ => rewrite (cell_text_Ok _ _ _ _ E); clear E
             end.
      reflexivity.
  - injection H as <-. split.
    + split; [intros [? [=]] | intros Hn; apply Hgate in Hn; discriminate].
    + intros l [=].
Qed.

Set Default Proof Using "Type".

Section RowProperties.

Context {tzinfo : Type}.
Variable timezone : string → option tzinfo.
Variable localize : tzinfo → datetime tzinfo → res (datetime tzinfo).
Variable parse : string → res (datetime tzinfo).
Variable get_localzone : string.

Abbreviation try_body' := (try_body timezone localize parse get_localzone).

(** What a successful run of the [try] body says about its stages. *)
Lemma try_body_inv index values row guid is_updated st item error_message st' :
  try_body' index values row guid is_updated st = Ok (item, error_message, st') →
  row_dates timezone localize parse get_localzone index values = Ok (item_dates item) ∧
  row_location index values = Ok (item_location item) ∧
  row_contact index values = Ok (item_contact item) ∧
  item_name item = cell_text index values "Event name" ∧
  item_slugline item = cell_text index values "Slugline" ∧
  item_calendars item =
    (let calendars := cell_text index values "Calendars" in
     if Py.truthy calendars
     then Some [Calendar true calendars (Py.lower calendars)] else None) ∧
  item_guid item = guid ∧
  item_status item = is_updated ∧
  commit index row guid is_updated item st = Ok (error_message, st').
Proof.
  intros H. unfold try_body in H.
  apply bind_inv_Ok in H. destruct H as (built & Hbuilt & H).
  apply bind_inv_Ok in H. destruct H as ([em st2] & Hcommit & H).
  simpl in H. injection H as <- <- <-.
  unfold build_item in Hbuilt. inv_binds Hbuilt. injection Hbuilt as <-. simpl.
  repeat match goal with
         | E : cell _ _ _ = Ok _ |- _ => rewrite (cell_text_Ok _ _ _ _ E); clear E
         end.
  repeat split; assumption.
Qed.

(** C7: when the body of the [try] builds an event, the event has a contact
    block exactly when the e-mail and phone-number cells are non-empty and
    either both name cells or the organisation cell are non-empty; the
    phone of that block is public exactly when "Contact Phone Public" is
    TRUE and "Contact Phone Usage" is not Confidential. *)
Theorem contact_block_gate index values row guid is_updated st item error_message st' :
  try_body' index values row guid is_updated st = Ok (item, error_message, st') →
  let nonempty f := cell_text index values f ≠ "" in
  (is_Some (item_contact item) ↔
     nonempty "Contact Email" ∧ nonempty "Contact Phone Number" ∧
     ((nonempty "Contact First name" ∧ nonempty "Contact Last name") ∨
      nonempty "Contact Organisation")) ∧
  (∀ c, item_contact item = Some c →
     ∃ p, contact_phone c = [p] ∧
       (phone_public p = true ↔
          cell_text index values "Contact Phone Public" = "TRUE" ∧
          cell_text index values "Contact Phone Usage" ≠ "Confidential")).
Proof.
  intros H. apply try_body_inv in H.
  destruct H as (_ & _ & Hcontact & _).
  now apply row_contact_spec.
Qed.

Abbreviation row_dates' := (row_dates timezone localize parse get_localzone).

Lemma row_dates_refines index values values' :
  (∀ f, f ∈ date_fields → refines (cell index values f) (cell index values' f)) →
  refines (row_dates' index values) (row_dates' index values').
Proof. intros agree. unfold row_dates. refines_chain agree. Qed.


(** The stages of [row_dates] when it returns. *)
Lemma row_dates_inv index values dates :
  row_dates' index values = Ok dates →
  let text := cell_text index values in
  dates_tz dates =
    (if negb (String.eqb (text "Timezone") "none") then text "Timezone" else get_localzone) ∧
  ∃ tz parsed_start,
    timezone (dates_tz dates) = Some tz ∧
    parse (text "Start date" ++ " " ++ text "Start time") = Ok parsed_start ∧
    localize tz parsed_start = Ok (dates_start dates) ∧
    (∃ end_date, cell index values "End date" = Ok end_date) ∧
    (∃ all_day, cell index values "All day" = Ok all_day) ∧
    if String.eqb (text "All day") "TRUE" then
      ∃ parsed localized,
        parse (text "Start date") = Ok parsed ∧
        localize tz parsed = Ok localized ∧
        datetime_add localized (timedelta 1 (-1)) = Ok (dates_end dates)
    else
      ∃ parsed,
        parse (text "End date" ++ " " ++ text "End time") = Ok parsed ∧
        localize tz parsed = Ok (dates_end dates).
Proof.
  intros H text. unfold row_dates in H. inv_binds H. injection H as <-. simpl.
  subst text.
  match goal with
  | E : match timezone ?n with _ => _ end = Ok ?z |- _ =>
      destruct (timezone n) eqn:Etz; [injection E as ->|discriminate]
  end.
  match goal with
  | E : (if String.eqb ?a "TRUE" then _ else _) = Ok _ |- _ =>
      destruct (String.eqb a "TRUE") eqn:Eall; inv_binds E
  end;
  repeat match goal with
         | E1 : ?c = Ok ?a, E2 : ?c = Ok ?b |- _ =>
             first [constr_eq a b; fail 1 | rewrite E1 in E2; injection E2 as <-]
         end;
  repeat match goal with
         | E : cell _ _ _ = Ok _ |- _ => rewrite (cell_text_Ok _ _ _ _ E)
         end;
  rewrite ?Eall; (split; [reflexivity|]);
  eexists _, _; repeat (split; [first [eassumption | reflexivity | eauto]|]); eauto.
Qed.




Lemma read_status_present index values i s :
  index !! "_STATUS" = Some i → values !! i = Some s →
  read_status index values = Ok (Some (Py.upper (Py.strip s))).
Proof.
  intros Hi Hs. unfold read_status, dict_get. rewrite Hi. simpl.
  pose proof (lookup_lt_Some _ _ _ Hs) as Hlt.
  destruct (Nat.ltb_spec (length values) (i + 1)) as [Hshort|_]; [lia|].
  unfold getitem. now rewrite Hs.
Qed.

Lemma read_status_absent index values i :
  index !! "_STATUS" = Some i → values !! i = None →
  read_status index values = Ok None.
Proof.
  intros Hi Hs. unfold read_status, dict_get. rewrite Hi. simpl.
  apply lookup_ge_None in Hs.
  destruct (Nat.ltb_spec (length values) (i + 1)) as [_|Hlong]; [reflexivity|lia].
Qed.


End RowProperties.

(** ** One row of the loop *)

Lemma dict_get_Ok {A} (d : gmap string A) k v : dict_get d k = Ok v ↔ d !! k = Some v.
Proof. unfold dict_get. destruct (d !! k); split; congruence. Qed.

Lemma missing_message_truthy s : Py.truthy ("Missing " ++ s ++ " fields") = true.
Proof. reflexivity. Qed.

Lemma resolved_bookkeeping data total_col index calls :
  resolve_index data total_col = Ok (index, calls) →
  ∀ f, f ∈ bookkeeping_fields → is_Some (index !! f).
Proof.
  intros H f Hf. apply resolve_index_spec in H. destruct H as (_ & Hkeys & _).
  apply Hkeys. unfold all_fields. apply elem_of_app. now right.
Qed.


Section RowStep.

Context {tzinfo : Type}.
Variable timezone : string → option tzinfo.
Variable localize : tzinfo → datetime tzinfo → res (datetime tzinfo).
Variable parse : string → res (datetime tzinfo).
Variable get_localzone : string.
Variable find_one : string → bool.
Variable generate_guid : nat → string.

Abbreviation try_body_ := (try_body timezone localize parse get_localzone).
Abbreviation try_except_ := (try_except timezone localize parse get_localzone).
Abbreviation row_step_ :=
  (row_step timezone localize parse get_localzone find_one generate_guid).
Abbreviation rows_loop_ :=
  (rows_loop timezone localize parse get_localzone find_one generate_guid).
Abbreviation determine_guid_ := (determine_guid find_one generate_guid).

(** The three DONE cells of an accepted row and the two ERROR cells of a
    failed row. *)
Definition done_cells (index : gmap string nat) (row : nat) (guid : string)
    (cells : list Cell) : Prop :=
  ∃ i_status i_message i_guid,
    index !! "_STATUS" = Some i_status ∧
    index !! "_ERR_MESSAGE" = Some i_message ∧
    index !! "_GUID" = Some i_guid ∧
    cells = [mkCell row (i_status + 1) "DONE"; mkCell row (i_message + 1) "";
             mkCell row (i_guid + 1) guid].

Definition error_cells (index : gmap string nat) (row : nat) (reason : string)
    (cells : list Cell) : Prop :=
  ∃ i_status i_message,
    index !! "_STATUS" = Some i_status ∧
    index !! "_ERR_MESSAGE" = Some i_message ∧
    cells = [mkCell row (i_status + 1) "ERROR"; mkCell row (i_message + 1) reason].

Lemma commit_cases index row guid is_updated (item : item_t tzinfo) st error_message st' :
  commit index row guid is_updated item st = Ok (error_message, st') →
  (missing_fields item ≠ [] ∧
   error_message = Some ("Missing " ++ Py.join ", " (missing_fields item) ++ " fields") ∧
   st' = st) ∨
  (missing_fields item = [] ∧ error_message = None ∧ eligible is_updated = false ∧
   st' = st) ∨
  (missing_fields item = [] ∧ error_message = None ∧ eligible is_updated = true ∧
   ∃ cells, done_cells index row guid cells ∧
     st' = LoopState (items st ++ [item]) (cells_list st ++ cells) (guid_calls st)).
Proof.
  unfold commit. destruct (missing_fields item) as [|field fields] eqn:Emissing.
  - destruct (eligible is_updated).
    + intros H. inv_binds H. injection H as <- <-. right. right.
      do 3 (split; [reflexivity|]). eexists. split; [|reflexivity].
      unfold done_cells. eexists _, _, _.
      do 3 (split; [apply dict_get_Ok; eassumption|]). reflexivity.
    + intros [= <- <-]. right. left. auto.
  - intros [= <- <-]. left. repeat split. discriminate.
Qed.

(** What the [try] statement leaves behind. *)
Lemma try_except_cases index values row guid is_updated st error_message st' :
  try_except_ index values row guid is_updated st = Ok (error_message, st') →
  (∃ item, try_body_ index values row guid is_updated st = Ok (item, error_message, st')) ∨
  (∃ e, try_body_ index values row guid is_updated st = Raise e ∧ st' = st ∧
     ((exn_cls e = UnknownTimeZoneError ∧ error_message = Some "Invalid timezone" ∧
       ∃ name, cell index values "Event name" = Ok name) ∨
      (caught (exn_cls e) = true ∧ error_message = Some (exn_arg e)))).
Proof.
  unfold try_except.
  destruct (try_body _ _ _ _ _ _ _ _ _ _) as [[[item em] st2]|e].
  - intros [= <- <-]. left. eauto.
  - intros H. right. exists e. split; [reflexivity|].
    destruct (exn_cls e) eqn:Ecls; simpl in H; try discriminate H;
      try (injection H as <- <-; split; [reflexivity|]; right; auto).
    apply bind_inv_Ok in H. destruct H as (name & Hname & H).
    injection H as <- <-. split; [reflexivity|]. left. eauto.
Qed.

Lemma record_error_cases index row error_message (st st' : @loop_state tzinfo) :
  record_error index row error_message st = Ok st' →
  (match error_message with Some m => m = "" | None => True end ∧ st' = st) ∨
  (∃ reason cells, error_message = Some reason ∧ reason ≠ "" ∧
     error_cells index row reason cells ∧
     st' = LoopState (items st) (cells_list st ++ cells) (guid_calls st)).
Proof.
  unfold record_error. destruct error_message as [m|]; [|intros [= <-]; left; auto].
  destruct (Py.truthy m) eqn:Em.
  - intros H. inv_binds H. injection H as <-. right. exists m. eexists.
    split; [reflexivity|]. split; [now apply truthy_spec|]. split; [|reflexivity].
    unfold error_cells. eexists _, _.
    do 2 (split; [apply dict_get_Ok; eassumption|]). reflexivity.
  - intros [= <-]. left. split; [now apply truthy_false|reflexivity].
Qed.

Lemma determine_guid_state index values (st : @loop_state tzinfo) guid st1 :
  determine_guid_ index values st = Ok (guid, st1) →
  items st1 = items st ∧ cells_list st1 = cells_list st.
Proof.
  unfold determine_guid. intros H. apply bind_inv_Ok in H. destruct H as ([|] & _ & H).
  - apply bind_inv_Ok in H. destruct H as (g & _ & H).
    destruct (negb (find_one g)); [discriminate|]. injection H as <- <-. auto.
  - injection H as <- <-. auto.
Qed.

Abbreviation build_item_ := (build_item timezone localize parse get_localzone).

Lemma try_body_Ok index values row guid is_updated st item error_message st' :
  try_body_ index values row guid is_updated st = Ok (item, error_message, st') ↔
  build_item_ index values guid is_updated = Ok item ∧
  commit index row guid is_updated item st = Ok (error_message, st').
Proof.
  unfold try_body. split.
  - intros H. apply bind_inv_Ok in H. destruct H as (built & Hbuilt & H).
    apply bind_inv_Ok in H. destruct H as ([em st2] & Hcommit & H).
    simpl in H. injection H as <- <- <-. auto.
  - intros [-> Hcommit]. simpl. now rewrite Hcommit.
Qed.

(** With the bookkeeping columns in the index, [commit] returns. *)
Lemma commit_returns index row guid is_updated (item : item_t tzinfo) st :
  (∀ f, f ∈ bookkeeping_fields → is_Some (index !! f)) →
  ∃ r, commit index row guid is_updated item st = Ok r.
Proof.
  intros Hkeys. unfold commit. destruct (missing_fields item); [|eauto].
  destruct (eligible is_updated); [|eauto].
  destruct (Hkeys "_STATUS") as [i_status Hs]; [field_in|].
  destruct (Hkeys "_ERR_MESSAGE") as [i_message Hm]; [field_in|].
  destruct (Hkeys "_GUID") as [i_guid Hg]; [field_in|].
  unfold dict_get. rewrite Hs, Hm, Hg. simpl. eauto.
Qed.

Lemma try_body_Raise index values row guid is_updated st e :
  (∀ f, f ∈ bookkeeping_fields → is_Some (index !! f)) →
  try_body_ index values row guid is_updated st = Raise e ↔
  build_item_ index values guid is_updated = Raise e.
Proof.
  intros Hkeys. unfold try_body.
  destruct (build_item _ _ _ _ _ _ _ _) as [item|e']; simpl;
    [|split; intros [= ->]; reflexivity].
  destruct (commit_returns index row guid is_updated item st Hkeys) as [r ->].
  simpl. split; discriminate.
Qed.

(** The row fails with [reason]: required fields are missing, or the
    [try] body raised an exception that one of the [except] clauses takes. *)
Definition row_failure (index : gmap string nat) (values : list string)
    (guid : string) (is_updated : option string) (reason : string) : Prop :=
  (∃ item, build_item_ index values guid is_updated = Ok item ∧
     missing_fields item ≠ [] ∧
     reason = "Missing " ++ Py.join ", " (missing_fields item) ++ " fields") ∨
  (∃ e, build_item_ index values guid is_updated = Raise e ∧
     ((exn_cls e = UnknownTimeZoneError ∧ reason = "Invalid timezone" ∧
       ∃ name, cell index values "Event name" = Ok name) ∨
      (caught (exn_cls e) = true ∧ reason = exn_arg e))).

(** The steps of an iteration that returns. *)
Lemma row_step_inv index data row st st' :
  row_step_ index data row st = Ok st' →
  ∃ values is_updated guid st1 error_message st2,
    getitem data (row - 1) = Ok values ∧
    read_status index values = Ok is_updated ∧
    determine_guid_ index values st = Ok (guid, st1) ∧
    try_except_ index values row guid is_updated st1 = Ok (error_message, st2) ∧
    record_error index row error_message st2 = Ok st'.
Proof.
  unfold row_step. intros H.
  apply bind_inv_Ok in H. destruct H as (values & Hvalues & H).
  apply bind_inv_Ok in H. destruct H as (is_updated & Hstatus & H).
  apply bind_inv_Ok in H. destruct H as ([guid st1] & Hguid & H).
  apply bind_inv_Ok in H. destruct H as ([error_message st2] & Htry & H).
  simpl in *. eauto 12.
Qed.

Lemma row_step_intro index data row st values is_updated guid st1 error_message st2 :
  getitem data (row - 1) = Ok values →
  read_status index values = Ok is_updated →
  determine_guid_ index values st = Ok (guid, st1) →
  try_except_ index values row guid is_updated st1 = Ok (error_message, st2) →
  row_step_ index data row st = record_error index row error_message st2.
Proof.
  unfold row_step. intros Hv Hs Hg Ht.
  rewrite Hv. simpl. rewrite Hs. simpl. rewrite Hg. simpl. rewrite Ht. reflexivity.
Qed.

(** The outcome of an iteration that returns: the row is accepted with
    three DONE cells, or passed over, or it fails with a reason, which is
    written in two ERROR cells unless it is empty. *)
Lemma row_step_cases index data row st st' :
  (∀ f, f ∈ bookkeeping_fields → is_Some (index !! f)) →
  row_step_ index data row st = Ok st' →
  ∃ values is_updated guid st1,
    getitem data (row - 1) = Ok values ∧
    read_status index values = Ok is_updated ∧
    determine_guid_ index values st = Ok (guid, st1) ∧
    ((∃ item cells,
        build_item_ index values guid is_updated = Ok item ∧
        missing_fields item = [] ∧ eligible is_updated = true ∧
        done_cells index row guid cells ∧
        items st' = (items st ++ [item])%list ∧
        cells_list st' = (cells_list st ++ cells)%list) ∨
     (∃ item,
        build_item_ index values guid is_updated = Ok item ∧
        missing_fields item = [] ∧ eligible is_updated = false ∧
        items st' = items st ∧ cells_list st' = cells_list st) ∨
     (∃ reason,
        row_failure index values guid is_updated reason ∧ items st' = items st ∧
        ((reason = "" ∧ cells_list st' = cells_list st) ∨
         (reason ≠ "" ∧ ∃ cells, error_cells index row reason cells ∧
            cells_list st' = (cells_list st ++ cells)%list)))).
Proof.
  intros Hkeys H. apply row_step_inv in H.
  destruct H as (values & is_updated & guid & st1 & em & st2 & Hv & Hs & Hg & Ht & Hr).
  exists values, is_updated, guid, st1. do 3 (split; [assumption|]).
  apply determine_guid_state in Hg. destruct Hg as [Hitems Hcells].
  apply try_except_cases in Ht. destruct Ht as [[item Hbody]|(e & Hbody & -> & Hclause)].
  - apply try_body_Ok in Hbody. destruct Hbody as [Hbuilt Hcommit].
    apply commit_cases in Hcommit.
    destruct Hcommit as [(Hmiss & -> & ->)|[(Hmiss & -> & Hel & ->)|(Hmiss & -> & Hel & cells & Hdone & ->)]].
    + right. right. eexists. split; [left; eauto|].
      apply record_error_cases in Hr. destruct Hr as [[Hempty _]|(reason & cells & Hreason & Hne & Hcells' & ->)].
      * discriminate Hempty.
      * injection Hreason as <-. simpl. split; [assumption|]. right.
        split; [assumption|]. exists cells. split; [assumption|]. now rewrite Hcells.
    + right. left. simpl in Hr. injection Hr as <-. eauto 10.
    + left. simpl in Hr. injection Hr as <-. simpl. exists item, cells.
      rewrite Hitems, Hcells. auto 10.
  - apply try_body_Raise in Hbody; [|assumption].
    right. right.
    assert (Hfail : ∀ reason, em = Some reason → row_failure index values guid is_updated reason).
    { intros reason ->. right. exists e. split; [assumption|].
      destruct Hclause as [(Hcls & [= <-] & Hname)|(Hcls & [= <-])]; auto. }
    destruct Hclause as [(_ & -> & _)|(_ & ->)];
      (eexists; split; [apply Hfail; reflexivity|]);
      apply record_error_cases in Hr;
      destruct Hr as [[Hempty ->]|(reason & cells & [= <-] & Hne & Hcells' & ->)];
      simpl; (split; [assumption|]); try discriminate Hempty.
    + right. split; [discriminate|]. exists cells. rewrite Hcells. auto.
    + left. auto.
    + right. split; [assumption|]. exists cells. rewrite Hcells. auto.
Qed.


(** A failed row is caught by the [try] statement. *)
Lemma try_except_failure index values row guid is_updated st reason :
  row_failure index values guid is_updated reason →
  try_except_ index values row guid is_updated st = Ok (Some reason, st).
Proof.
  unfold try_except, try_body.
  intros [(item & -> & Hmissing & ->)|(e & -> & Hclause)]; simpl.
  - unfold commit. destruct (missing_fields item); [now destruct Hmissing|reflexivity].
  - destruct Hclause as [(-> & -> & name & ->)|(Hcaught & ->)]; [reflexivity|].
    destruct (exn_cls e); try discriminate Hcaught; reflexivity.
Qed.

(** The iteration of a failed row returns, with nothing accepted, and the
    loop goes on. *)
Lemma row_failure_step index data row st values is_updated guid st1 reason :
  (∀ f, f ∈ bookkeeping_fields → is_Some (index !! f)) →
  getitem data (row - 1) = Ok values →
  read_status index values = Ok is_updated →
  determine_guid_ index values st = Ok (guid, st1) →
  row_failure index values guid is_updated reason →
  ∃ st', row_step_ index data row st = Ok st' ∧ items st' = items st ∧
    ((reason = "" ∧ cells_list st' = cells_list st) ∨
     (reason ≠ "" ∧ ∃ cells, error_cells index row reason cells ∧
        cells_list st' = (cells_list st ++ cells)%list)) ∧
    (∀ rest, row ≠ 0 →
       rows_loop_ index data (row :: rest) st = rows_loop_ index data rest st').
Proof.
  intros Hkeys Hv Hs Hg Hfail.
  pose proof (try_except_failure index values row guid is_updated st1 reason Hfail) as Htry.
  pose proof (row_step_intro _ _ _ _ _ _ _ _ _ _ Hv Hs Hg Htry) as Hstep.
  pose proof (determine_guid_state _ _ _ _ _ Hg) as [Hitems Hcells].
  destruct (Hkeys "_STATUS") as [i_status Hstatus]; [field_in|].
  destruct (Hkeys "_ERR_MESSAGE") as [i_message Hmessage]; [field_in|].
  assert (Hloop : ∀ st', row_step_ index data row st = Ok st' → ∀ rest, row ≠ 0 →
            rows_loop_ index data (row :: rest) st = rows_loop_ index data rest st').
  { intros st' Hst' rest Hrow. simpl. apply Nat.eqb_neq in Hrow. rewrite Hrow, Hst'.
    reflexivity. }
  unfold record_error, dict_get in Hstep. rewrite Hstatus, Hmessage in Hstep.
  simpl in Hstep. destruct (Py.truthy reason) eqn:Hreason.
  - eexists. split; [exact Hstep|]. simpl. split; [assumption|].
    split; [|now apply Hloop]. right. split; [now apply truthy_spec|].
    eexists. split; [unfold error_cells; eauto 6|]. now rewrite Hcells.
  - exists st1. split; [exact Hstep|]. split; [assumption|].
    split; [|now apply Hloop]. left. split; [now apply truthy_false|assumption].
Qed.

(** *** Rows with a cell under every title *)

Definition full_row (index : gmap string nat) (values : list string) : Prop :=
  ∀ f, f ∈ self_titles → ∃ v, cell index values f = Ok v.

Lemma all_cells_full index values fields :
  (∀ f, f ∈ fields → ∃ v, cell index values f = Ok v) →
  ∃ b, all_cells index values fields = Ok b.
Proof.
  induction fields as [|field fields IH]; simpl; intros H; [eauto|].
  destruct (H field) as [v ->]; [left|]. simpl.
  destruct (Py.truthy v); [|eauto]. apply IH. intros f Hf. apply H. now right.
Qed.

(** Case analysis on a chain of binds that raises. *)
Ltac raise_cases :=
  repeat (simpl in *;
    match goal with
    | H : bind ?m _ = Raise _ |- _ => destruct m eqn:?
    | H : (if ?b then _ else _) = Raise _ |- _ => destruct b eqn:?
    | H : match ?o with _ => _ end = Raise _ |- _ => destruct o eqn:?
    | H : Ok _ = Raise _ |- _ => discriminate H
    end).

(** Replace the reads of a full row by their values. *)
Ltac read_full Hfull H :=
  repeat match type of H with
         | context [cell ?index ?values ?f] =>
             let v := fresh "v" in
             let Hv := fresh "Hv" in
             destruct (Hfull f) as [v Hv]; [field_in|];
             rewrite !Hv in H
         end.

Lemma row_location_full index values :
  full_row index values → ∃ l, row_location index values = Ok l.
Proof.
  intros Hfull. destruct (row_location index values) as [l|e] eqn:H; [eauto|].
  exfalso. unfold row_location in H.
  destruct (all_cells_full index values required_location_field) as [b Hb].
  { intros f Hf. apply Hfull. revert f Hf. apply Forall_forall. field_in. }
  rewrite Hb in H. read_full Hfull H. raise_cases.
Qed.

Lemma row_contact_full index values :
  full_row index values → ∃ c, row_contact index values = Ok c.
Proof.
  intros Hfull. destruct (row_contact index values) as [c|e] eqn:H; [eauto|].
  exfalso. unfold row_contact in H.
  destruct (all_cells_full index values required_contact_field) as [b Hb].
  { intros f Hf. apply Hfull. revert f Hf. apply Forall_forall. field_in. }
  destruct (all_cells_full index values ["Contact First name"; "Contact Last name"])
    as [b' Hb'].
  { intros f Hf. apply Hfull. revert f Hf. apply Forall_forall. field_in. }
  rewrite Hb, ?Hb' in H. read_full Hfull H. raise_cases.
Qed.

(** On a full row the event is built, or one of these is raised:
    [UnknownTimeZoneError] for the zone name, an exception of [parse] or
    [localize], the [OverflowError] of the end-of-day addition, or the
    [KeyError] of the occurrence label. *)
Lemma build_item_raise index values guid is_updated e :
  full_row index values →
  build_item_ index values guid is_updated = Raise e →
  let tzcell := cell_text index values "Timezone" in
  let tzone := if negb (String.eqb tzcell "none") then tzcell else get_localzone in
  let label := cell_text index values "Occurence status" in
  (e = Exn UnknownTimeZoneError tzone ∧ timezone tzone = None) ∨
  (∃ s, parse s = Raise e) ∨
  (∃ z d, localize z d = Raise e) ∨
  e = Exn OverflowError "date value out of range" ∨
  (e = Exn KeyError label ∧ occur_status_qcode_mapping !! label = None).
Proof.
  intros Hfull H. simpl.
  destruct (row_location_full index values Hfull) as [l Hl].
  destruct (row_contact_full index values Hfull) as [c Hc].
  unfold build_item, row_dates in H. rewrite Hl, Hc in H.
  unfold cell_text. read_full Hfull H.
  repeat match goal with
         | Hv : cell index values ?f = Ok _ |- context [cell index values ?f] =>
             rewrite Hv
         end.
  raise_cases;
    repeat match goal with
           | E : datetime_add _ _ = Raise _ |- _ =>
               unfold datetime_add in E; destruct (_ && _)%bool in E; [discriminate E|]
           | E : dict_get _ _ = Raise _ |- _ =>
               unfold dict_get in E;
               destruct (occur_status_qcode_mapping !! _) eqn:?; [discriminate E|]
           | E : Raise _ = Raise _ |- _ => injection E as <-
           | E : bind (Raise _) _ = Raise _ |- _ => simpl in E
           | E : bind (Ok _) _ = Raise _ |- _ => simpl in E
           end;
    solve [ left; split; first [reflexivity|assumption]
          | right; left; eauto
          | right; right; left; eauto
          | right; right; right; left; reflexivity
          | right; right; right; right; split; reflexivity ].
Qed.

Lemma build_item_inv index values guid is_updated item :
  build_item_ index values guid is_updated = Ok item →
  item_name item = cell_text index values "Event name" ∧
  item_slugline item = cell_text index values "Slugline" ∧
  item_calendars item =
    (let calendars := cell_text index values "Calendars" in
     if Py.truthy calendars
     then Some [Calendar true calendars (Py.lower calendars)] else None) ∧
  item_guid item = guid ∧
  item_status item = is_updated.
Proof.
  intros H. unfold build_item in H. inv_binds H. injection H as <-. simpl.
  repeat match goal with
         | E : cell _ _ _ = Ok _ |- _ => rewrite (cell_text_Ok _ _ _ _ E); clear E
         end.
  repeat split.
Qed.

(** The required fields of an event that was built are missing exactly
    when the Slugline, Calendars or Event name cell is empty. *)
Lemma missing_fields_spec index values guid is_updated item :
  build_item_ index values guid is_updated = Ok item →
  missing_fields item ≠ [] ↔
  cell_text index values "Slugline" = "" ∨ cell_text index values "Calendars" = "" ∨
  cell_text index values "Event name" = "".
Proof.
  intros H. apply build_item_inv in H. destruct H as (Hn & Hs & Hc & _).
  unfold missing_fields, required_field, item_get_truthy. simpl.
  rewrite Hn, Hs, Hc. simpl. rewrite <- !truthy_false.
  destruct (Py.truthy (cell_text index values "Slugline")),
    (Py.truthy (cell_text index values "Calendars")),
    (Py.truthy (cell_text index values "Event name")); simpl;
    (split;
     [ intros Hne; first [now destruct Hne | auto]
     | intros Hd; first [discriminate | destruct Hd as [Hd|[Hd|Hd]]; discriminate Hd] ]).
Qed.

(** X3: a row whose event lacks a required field is
    not accepted and gets the two ERROR cells, with the message Missing
    ... fields, like the rows that fail otherwise: an invalid timezone
    queues ERROR and Invalid timezone, and a TypeError, ValueError or
    KeyError with a non-empty message queues ERROR and that message. *)
Theorem failed_rows_are_marked data total_col calls index row st values is_updated
    guid st1 :
  resolve_index data total_col = Ok (index, calls) →
  getitem data (row - 1) = Ok values →
  read_status index values = Ok is_updated →
  determine_guid_ index values st = Ok (guid, st1) →
  let marked reason :=
    ∃ st' cells,
      row_step_ index data row st = Ok st' ∧ items st' = items st ∧
      error_cells index row reason cells ∧
      cells_list st' = (cells_list st ++ cells)%list in
  (∀ item, build_item_ index values guid is_updated = Ok item →
     (missing_fields item ≠ [] ↔
      cell_text index values "Slugline" = "" ∨ cell_text index values "Calendars" = "" ∨
      cell_text index values "Event name" = "") ∧
     (missing_fields item ≠ [] →
      marked ("Missing " ++ Py.join ", " (missing_fields item) ++ " fields"))) ∧
  (∀ e name, build_item_ index values guid is_updated = Raise e →
     exn_cls e = UnknownTimeZoneError → cell index values "Event name" = Ok name →
     marked "Invalid timezone") ∧
  (∀ e, build_item_ index values guid is_updated = Raise e →
     caught (exn_cls e) = true → exn_arg e ≠ "" → marked (exn_arg e)).
Proof.
  intros Hres Hv Hs Hg marked.
  pose proof (resolved_bookkeeping _ _ _ _ Hres) as Hkeys.
  assert (Hmark : ∀ reason, row_failure index values guid is_updated reason →
            reason ≠ "" → marked reason).
  { intros reason Hfail Hne.
    destruct (row_failure_step _ _ _ _ _ _ _ _ _ Hkeys Hv Hs Hg Hfail)
      as (st' & Hstep & Hitems & [[Hempty _]|(_ & cells & Hcells & Hlist)] & _);
      [contradiction|].
    exists st', cells. auto. }
  split; [|split].
  - intros item Hitem. split; [now apply (missing_fields_spec _ _ _ _ _ Hitem)|].
    intros Hmissing. apply Hmark; [|discriminate]. left. eauto.
  - intros e name He Hcls Hname. apply Hmark; [|discriminate].
    right. exists e. split; [assumption|]. left. eauto.
  - intros e He Hcaught Harg. apply Hmark; [|assumption].
    right. exists e. split; [assumption|]. right. auto.
Qed.

(** X4: on a row with a cell under every title, whose
    identifier is fresh or known to the events resource, a failure of the
    row is handled at the row boundary.  When the event cannot be built
    because of an invalid timezone, or of a TypeError, ValueError or
    KeyError (an unparsable date or time, an unknown occurrence label),
    or when it lacks required fields, the iteration returns, nothing is
    accepted and the loop goes on with the next row.  Reading such a row
    raises nothing by itself: an exception of the [try] body is the
    UnknownTimeZoneError of the zone name, an exception of [parse] or
    [localize], the OverflowError of the end-of-day addition, or the
    KeyError of the occurrence label. *)
Theorem row_failures_contained data total_col calls index row st values is_updated
    guid st1 :
  resolve_index data total_col = Ok (index, calls) →
  getitem data (row - 1) = Ok values →
  read_status index values = Ok is_updated →
  determine_guid_ index values st = Ok (guid, st1) →
  full_row index values →
  let continues :=
    ∃ st', row_step_ index data row st = Ok st' ∧ items st' = items st ∧
      ∀ rest, row ≠ 0 →
        rows_loop_ index data (row :: rest) st = rows_loop_ index data rest st' in
  let tzcell := cell_text index values "Timezone" in
  let tzone := if negb (String.eqb tzcell "none") then tzcell else get_localzone in
  let label := cell_text index values "Occurence status" in
  (timezone tzone = None →
     build_item_ index values guid is_updated = Raise (Exn UnknownTimeZoneError tzone)) ∧
  (∀ e, build_item_ index values guid is_updated = Raise e →
     exn_cls e = UnknownTimeZoneError ∨ caught (exn_cls e) = true → continues) ∧
  (∀ item, build_item_ index values guid is_updated = Ok item →
     missing_fields item ≠ [] → continues) ∧
  (∀ e, build_item_ index values guid is_updated = Raise e →
     (e = Exn UnknownTimeZoneError tzone ∧ timezone tzone = None) ∨
     (∃ s, parse s = Raise e) ∨
     (∃ z d, localize z d = Raise e) ∨
     e = Exn OverflowError "date value out of range" ∨
     (e = Exn KeyError label ∧ occur_status_qcode_mapping !! label = None)).
Proof.
  intros Hres Hv Hs Hg Hfull continues tzcell tzone label.
  pose proof (resolved_bookkeeping _ _ _ _ Hres) as Hkeys.
  assert (Hcont : ∀ reason, row_failure index values guid is_updated reason → continues).
  { intros reason Hfail.
    destruct (row_failure_step _ _ _ _ _ _ _ _ _ Hkeys Hv Hs Hg Hfail)
      as (st' & Hstep & Hitems & _ & Hloop).
    exists st'. auto. }
  split; [|split; [|split]].
  - intros Htz. unfold build_item, row_dates.
    destruct (Hfull "Timezone") as [v Hcell]; [field_in|].
    subst tzone tzcell. rewrite (cell_text_Ok _ _ _ _ Hcell) in *.
    rewrite Hcell. simpl. now rewrite Htz.
  - intros e He Hcls. destruct (Hfull "Event name") as [name Hname]; [field_in|].
    destruct Hcls as [Hcls|Hcls].
    + apply (Hcont "Invalid timezone"). right. exists e. split; [assumption|]. left. eauto.
    + apply (Hcont (exn_arg e)). right. exists e. split; [assumption|]. right. auto.
  - intros item Hitem Hmissing. eapply Hcont. left. eauto.
  - intros e He. now apply (build_item_raise index values guid is_updated e Hfull).
Qed.

Abbreviation update_ :=
  (_update timezone localize parse get_localzone find_one generate_guid).

(** X2: the service writes cells once, after the loop: the calls of a run
    that returns are the header calls followed by one [update_cells] with
    the whole batch when the batch is not empty, and by nothing when it
    is; a run that raises has made header calls only.  In the batch, a row
    whose error message is not empty adds exactly the two ERROR cells
    (status, message), and a row that passes validation with an eligible
    status adds exactly the three DONE cells (status, empty message, guid). *)
Theorem batched_write_back data total_col :
  (∀ calls result, update_ data total_col = (calls, result) →
     match result with
     | Raise _ => Forall header_call calls
     | Ok returned =>
         ∃ index header_calls st,
           resolve_index data total_col = Ok (index, header_calls) ∧
           Forall header_call header_calls ∧
           rows_loop_ index data (data_rows data) (LoopState [] [] 0) = Ok st ∧
           returned = [items st] ∧
           calls = (header_calls ++
                    match cells_list st with
                    | [] => []
                    | _ :: _ => [update_cells (cells_list st)]
                    end)%list
     end) ∧
  (∀ index header_calls row st values is_updated guid st1,
     resolve_index data total_col = Ok (index, header_calls) →
     getitem data (row - 1) = Ok values →
     read_status index values = Ok is_updated →
     determine_guid_ index values st = Ok (guid, st1) →
     (∀ reason st2,
        try_except_ index values row guid is_updated st1 = Ok (Some reason, st2) →
        reason ≠ "" →
        ∃ st' cells,
          row_step_ index data row st = Ok st' ∧
          error_cells index row reason cells ∧
          items st' = items st ∧ cells_list st' = (cells_list st ++ cells)%list) ∧
     (∀ item st2,
        try_body_ index values row guid is_updated st1 = Ok (item, None, st2) →
        eligible is_updated = true →
        ∃ cells,
          row_step_ index data row st = Ok st2 ∧
          done_cells index row guid cells ∧ item_guid item = guid ∧
          items st2 = (items st ++ [item])%list ∧
          cells_list st2 = (cells_list st ++ cells)%list)).
Proof.
  split.
  - intros calls result. unfold _update.
    destruct (resolve_index data total_col) as [[index header_calls]|e] eqn:Hres.
    + pose proof (resolve_index_spec _ _ _ _ Hres) as (_ & _ & Hheader).
      destruct (rows_loop _ _ _ _ _ _ _ _ _ _) as [st|e] eqn:Hloop.
      * intros [= <- <-]. exists index, header_calls, st.
        do 4 (split; [first [reflexivity | assumption]|]).
        destruct (cells_list st); [now rewrite app_nil_r | reflexivity].
      * intros [= <- <-]. assumption.
    + intros [= <- <-]. constructor.
  - intros index header_calls row st values is_updated guid st1 Hres Hv Hs Hg.
    pose proof (resolved_bookkeeping _ _ _ _ Hres) as Hkeys.
    pose proof (determine_guid_state _ _ _ _ _ Hg) as [Hitems Hcells].
    split.
    + intros reason st2 Htry Hreason.
      rewrite (row_step_intro _ _ _ _ _ _ _ _ _ _ Hv Hs Hg Htry).
      assert (st2 = st1) as ->.
      { apply try_except_cases in Htry.
        destruct Htry as [[item Hbody]|(e & _ & -> & _)]; [|reflexivity].
        apply try_body_Ok in Hbody. destruct Hbody as [_ Hcommit].
        apply commit_cases in Hcommit.
        destruct Hcommit as [(_ & _ & ->)|[(_ & [=] & _)|(_ & [=] & _)]]. reflexivity. }
      destruct (Hkeys "_STATUS") as [i_status Hstatus]; [field_in|].
      destruct (Hkeys "_ERR_MESSAGE") as [i_message Hmessage]; [field_in|].
      unfold record_error, dict_get. apply truthy_spec in Hreason.
      rewrite Hreason, Hstatus, Hmessage. simpl.
      eexists _, _. split; [reflexivity|]. simpl. rewrite Hitems, Hcells.
      split; [|auto]. unfold error_cells. eauto 6.
    + intros item st2 Hbody Heligible.
      assert (Htry : try_except_ index values row guid is_updated st1 = Ok (None, st2)).
      { unfold try_except. now rewrite Hbody. }
      rewrite (row_step_intro _ _ _ _ _ _ _ _ _ _ Hv Hs Hg Htry). simpl.
      apply try_body_inv in Hbody.
      destruct Hbody as (_ & _ & _ & _ & _ & _ & Hguid & _ & Hcommit).
      apply commit_cases in Hcommit.
      destruct Hcommit as [(_ & [=] & _)|[(_ & _ & Hel & _)|(_ & _ & _ & cells & Hdone & ->)]].
      * congruence.
      * exists cells. simpl. rewrite Hitems, Hcells. auto.
Qed.

(** *** The identifier of a row *)

Lemma rows_loop_app index data rows rest st :
  Forall (fun row => row ≠ 0) rows →
  rows_loop_ index data (rows ++ rest) st =
  bind (rows_loop_ index data rows st) (rows_loop_ index data rest).
Proof.
  intros Hrows. revert st. induction Hrows as [|row rows Hrow _ IH]; intros st; simpl.
  - reflexivity.
  - apply Nat.eqb_neq in Hrow. rewrite Hrow.
    destruct (row_step _ _ _ _ _ _ _ _ _ _) as [st'|e]; simpl; [apply IH|reflexivity].
Qed.

Lemma seq_nonzero start len : 0 < start → Forall (fun row => row ≠ 0) (seq start len).
Proof.
  intros Hstart. apply Forall_forall. intros row Hrow.
  apply list_elem_of_In, in_seq in Hrow. lia.
Qed.

(** X5: an identifier that the events resource does not know stops the
    whole run.  When the rows before it are processed and row 3+n carries,
    before its last cell, a non-empty _GUID cell that [find_one] does not
    find, [_update] raises KeyError('GUID is not exists'): the exception
    leaves the loop, only the header calls have been made, and the cells
    queued for the earlier rows are never written. *)
Theorem unknown_guid_aborts_update data total_col index header_calls n st1 values guid :
  resolve_index data total_col = Ok (index, header_calls) →
  3 + n ≤ length data →
  rows_loop_ index data (seq 3 n) (LoopState [] [] 0) = Ok st1 →
  data !! (2 + n) = Some values →
  guid_present index values = Ok true →
  cell index values "_GUID" = Ok guid →
  find_one guid = false →
  update_ data total_col = (header_calls, Raise (Exn KeyError "GUID is not exists")).
Proof.
  intros Hres Hlen Hloop Hvalues Hpresent Hcell Hunknown.
  unfold _update. rewrite Hres.
  assert (Hrows : data_rows data = (seq 3 n ++ (3 + n) :: seq (4 + n) (length data - 3 - n))%list).
  { unfold data_rows. replace (length data + 1 - 3) with (n + S (length data - 3 - n)) by lia.
    rewrite seq_app. simpl. reflexivity. }
  rewrite Hrows, rows_loop_app by (apply seq_nonzero; lia).
  rewrite Hloop. simpl.
  assert (Hstep : row_step_ index data (S (S (S n))) st1
                  = Raise (Exn KeyError "GUID is not exists")).
  { unfold row_step, getitem. replace (S (S (S n)) - 1) with (2 + n) by lia.
    rewrite Hvalues. simpl.
    destruct (resolved_bookkeeping _ _ _ _ Hres "_STATUS") as [i_status Hstatus]; [field_in|].
    assert (Hread : ∃ s, read_status index values = Ok s).
    { unfold read_status, dict_get. rewrite Hstatus. simpl.
      destruct (Nat.ltb_spec (length values) (i_status + 1)) as [Hshort|Hlong]; [eauto|].
      destruct (lookup_lt_is_Some_2 values i_status) as [s Hs]; [lia|].
      unfold getitem. rewrite Hs. simpl. eauto. }
    destruct Hread as [s ->]. simpl.
    unfold determine_guid. rewrite Hpresent. simpl. rewrite Hcell. simpl.
    now rewrite Hunknown. }
  now rewrite Hstep.
Qed.

(** X6: the identifier of a row is read only when another cell follows it
    ([len(values) - 1 > index['_GUID']]).  When the _GUID cell is the last
    cell of the row, or the row ends before it, the events resource is not
    consulted and a new identifier is generated, whatever the cell holds;
    if the row then passes validation with an eligible status, the event
    gets the new identifier and the queued _GUID cell overwrites the one
    in the sheet. *)
Theorem guid_in_last_cell_is_replaced index data row st values is_updated i_guid :
  index !! "_GUID" = Some i_guid →
  length values ≤ i_guid + 1 →
  getitem data (row - 1) = Ok values →
  read_status index values = Ok is_updated →
  let fresh := generate_guid (guid_calls st) in
  let st1 := LoopState (items st) (cells_list st) (S (guid_calls st)) in
  determine_guid_ index values st = Ok (fresh, st1) ∧
  (∀ item st2,
     try_body_ index values row fresh is_updated st1 = Ok (item, None, st2) →
     eligible is_updated = true →
     row_step_ index data row st = Ok st2 ∧
     item_guid item = fresh ∧
     items st2 = (items st ++ [item])%list ∧
     ∃ cells, cells_list st2 = (cells_list st ++ cells)%list ∧
       last cells = Some (mkCell row (i_guid + 1) fresh)).
Proof.
  intros Hguid Hlen Hv Hs fresh st1.
  assert (Hg : determine_guid_ index values st = Ok (fresh, st1)).
  { unfold determine_guid, guid_present, dict_get. rewrite Hguid. simpl.
    destruct (Z.gtb_spec (Z.of_nat (length values) - 1) (Z.of_nat i_guid)) as [Hgt|_];
      [lia|reflexivity]. }
  split; [exact Hg|].
  intros item st2 Hbody Heligible.
  assert (Htry : try_except_ index values row fresh is_updated st1 = Ok (None, st2)).
  { unfold try_except. now rewrite Hbody. }
  rewrite (row_step_intro _ _ _ _ _ _ _ _ _ _ Hv Hs Hg Htry). simpl.
  split; [reflexivity|].
  apply try_body_Ok in Hbody. destruct Hbody as [Hbuilt Hcommit].
  apply build_item_inv in Hbuilt. destruct Hbuilt as (_ & _ & _ & Hitem_guid & _).
  split; [assumption|].
  apply commit_cases in Hcommit.
  destruct Hcommit as [(_ & [=] & _)|[(_ & _ & Hel & _)|(_ & _ & _ & cells & Hdone & ->)]].
  - congruence.
  - simpl. split; [reflexivity|]. exists cells. split; [reflexivity|].
    destruct Hdone as (i_s & i_m & i_g & _ & _ & Hg' & ->).
    rewrite Hguid in Hg'. injection Hg' as <-. reflexivity.
Qed.

(** *** The header and the run *)


(** *** The batch of cells *)

(** The sheet coordinates of a cell. *)
Definition coordinates (c : Cell) : nat * nat := (cell_row c, cell_col c).

(** The cells one row may queue: in its own row, under distinct
    bookkeeping columns. *)
Definition bookkeeping_cell (index : gmap string nat) (row : nat) (c : Cell) : Prop :=
  cell_row c = row ∧
  ∃ f i, f ∈ bookkeeping_fields ∧ index !! f = Some i ∧ cell_col c = i + 1.

Lemma row_step_cells data total_col calls index row st st' :
  resolve_index data total_col = Ok (index, calls) →
  row_step_ index data row st = Ok st' →
  ∃ cells, cells_list st' = (cells_list st ++ cells)%list ∧
    Forall (bookkeeping_cell index row) cells ∧
    NoDup (map coordinates cells).
Proof.
  intros Hres Hstep.
  assert (Hne : ∀ f g i j, f ∈ all_fields → g ∈ all_fields → f ≠ g →
            index !! f = Some i → index !! g = Some j → (row, i + 1) ≠ (row, j + 1)).
  { intros f g i j Hf Hg Hfg Hi Hj [= Heq].
    apply (resolved_columns_distinct _ _ _ _ f g i Hres Hf Hg Hfg Hi).
    rewrite Hj. f_equal. lia. }
  apply row_step_cases in Hstep; [|now apply (resolved_bookkeeping _ _ _ _ Hres)].
  destruct Hstep as (values & is_updated & guid & st1 & _ & _ & _ & Hcases).
  destruct Hcases as [(item & cells & _ & _ & _ & Hdone & _ & Hcells)
                     |[(item & _ & _ & _ & _ & Hcells)
                      |(reason & _ & _ & [[_ Hcells]|(_ & cells & Herr & Hcells)])]].
  - exists cells. split; [assumption|].
    destruct Hdone as (i_s & i_m & i_g & Hs & Hm & Hg & ->). split.
    + repeat apply Forall_cons_2; [| | |apply Forall_nil_2];
        (split; [reflexivity|]).
      * exists "_STATUS", i_s. split; [field_in|now split].
      * exists "_ERR_MESSAGE", i_m. split; [field_in|now split].
      * exists "_GUID", i_g. split; [field_in|now split].
    + simpl. apply NoDup_cons. split.
      * rewrite elem_of_cons, list_elem_of_singleton. intros [Heq|Heq]; revert Heq.
        -- apply (Hne "_STATUS" "_ERR_MESSAGE"); first [field_in|discriminate|assumption].
        -- apply (Hne "_STATUS" "_GUID"); first [field_in|discriminate|assumption].
      * apply NoDup_cons. split; [|apply NoDup_singleton].
        rewrite list_elem_of_singleton.
        apply (Hne "_ERR_MESSAGE" "_GUID"); first [field_in|discriminate|assumption].
  - exists []. rewrite app_nil_r. split; [assumption|]. split; constructor.
  - exists []. rewrite app_nil_r. split; [assumption|]. split; constructor.
  - exists cells. split; [assumption|].
    destruct Herr as (i_s & i_m & Hs & Hm & ->). split.
    + repeat apply Forall_cons_2; [| |apply Forall_nil_2];
        (split; [reflexivity|]).
      * exists "_STATUS", i_s. split; [field_in|now split].
      * exists "_ERR_MESSAGE", i_m. split; [field_in|now split].
    + simpl. apply NoDup_cons. split; [|apply NoDup_singleton].
      rewrite list_elem_of_singleton.
      apply (Hne "_STATUS" "_ERR_MESSAGE"); first [field_in|discriminate|assumption].
Qed.

Lemma rows_loop_cells data total_col calls index rows st st' :
  resolve_index data total_col = Ok (index, calls) →
  rows_loop_ index data rows st = Ok st' →
  ∃ cells, cells_list st' = (cells_list st ++ cells)%list ∧
    Forall (fun c => ∃ row, row ∈ rows ∧ bookkeeping_cell index row c) cells ∧
    (NoDup rows → NoDup (map coordinates cells)).
Proof.
  intros Hres. revert st. induction rows as [|row rows IH]; intros st Hloop.
  - injection Hloop as <-. exists []. rewrite app_nil_r. repeat split; constructor.
  - simpl in Hloop. destruct (row =? 0).
    + injection Hloop as <-. exists []. rewrite app_nil_r. repeat split; constructor.
    + apply bind_inv_Ok in Hloop. destruct Hloop as (st1 & Hstep & Hloop).
      destruct (row_step_cells _ _ _ _ _ _ _ Hres Hstep) as (cells1 & Hc1 & Hb1 & Hd1).
      destruct (IH _ Hloop) as (cells2 & Hc2 & Hb2 & Hd2).
      exists (cells1 ++ cells2)%list. split; [now rewrite Hc2, Hc1, app_assoc|]. split.
      * apply Forall_app. split.
        -- eapply Forall_impl; [exact Hb1|]. intros c Hc. exists row. split; [left|assumption].
        -- eapply Forall_impl; [exact Hb2|]. intros c (r & Hr & Hc). exists r.
           split; [now right|assumption].
      * intros Hnodup. apply NoDup_cons in Hnodup. destruct Hnodup as [Hnotin Hnodup].
        rewrite map_app. apply NoDup_app. split; [assumption|]. split; [|now apply Hd2].
        intros xy Hin1 Hin2.
        apply list_elem_of_fmap in Hin1. destruct Hin1 as (c1 & -> & Hin1).
        apply list_elem_of_fmap in Hin2. destruct Hin2 as (c2 & Heq & Hin2).
        rewrite Forall_forall in Hb1, Hb2.
        destruct (Hb1 c1 Hin1) as [Hrow1 _].
        destruct (Hb2 c2 Hin2) as (r & Hr & Hrow2 & _).
        injection Heq as Heq _. congruence.
Qed.

(** X10: what the batch holds.  Every cell written at the end of a run
    lies in a data row (row 3 up to the last row of the sheet) and under
    one of the three bookkeeping columns: the header rows and the titled
    columns are never written.  No cell of the sheet is written twice. *)
Theorem batch_cells_are_bookkeeping data total_col index header_calls calls returned :
  resolve_index data total_col = Ok (index, header_calls) →
  update_ data total_col = (calls, Ok returned) →
  ∀ cells, update_cells cells ∈ calls →
    Forall (fun c =>
      3 ≤ cell_row c ≤ length data ∧
      (∃ f i, f ∈ bookkeeping_fields ∧ index !! f = Some i ∧ cell_col c = i + 1) ∧
      (∀ t i, t ∈ self_titles → index !! t = Some i → cell_col c ≠ i + 1)) cells ∧
    NoDup (map coordinates cells).
Proof.
  intros Hres Hupdate cells Hin. unfold _update in Hupdate. rewrite Hres in Hupdate.
  destruct (rows_loop _ _ _ _ _ _ _ _ _ _) as [st|e] eqn:Hloop; [|discriminate Hupdate].
  pose proof (resolve_index_spec _ _ _ _ Hres) as (_ & _ & Hheader).
  assert (Hbatch : cells = cells_list st).
  { injection Hupdate as <- _. destruct (cells_list st) as [|c rest].
    - rewrite Forall_forall in Hheader. now destruct (Hheader _ Hin).
    - apply elem_of_app in Hin. destruct Hin as [Hin|Hin].
      + rewrite Forall_forall in Hheader. now destruct (Hheader _ Hin).
      + apply list_elem_of_singleton in Hin. now injection Hin. }
  subst cells.
  destruct (rows_loop_cells _ _ _ _ _ _ _ Hres Hloop) as (cells & Hcells & Hrows & Hnodup).
  simpl in Hcells. subst cells. split; [|apply Hnodup, NoDup_seq].
  eapply Forall_impl; [exact Hrows|]. intros c (row & Hrow & <- & f & i & Hf & Hi & Hcol).
  split; [|split].
  - unfold data_rows in Hrow. apply elem_of_seq in Hrow. lia.
  - eauto.
  - intros t j Ht Hj Heq.
    apply (resolved_columns_distinct _ _ _ _ f t i Hres); try assumption.
    + unfold all_fields. apply elem_of_app. now right.
    + unfold all_fields. apply elem_of_app. now left.
    + intros ->. revert Hf.
      assert (Hdisjoint : Forall (fun f => f ∉ bookkeeping_fields) self_titles) by field_in.
      rewrite Forall_forall in Hdisjoint. now apply Hdisjoint.
    + rewrite Hj. f_equal. lia.
Qed.

(** *** The events of a run *)

Lemma rows_loop_invariant (P : loop_state → Prop) index data rows st st' :
  (∀ row s s', row ∈ rows → P s → row_step_ index data row s = Ok s' → P s') →
  P st → rows_loop_ index data rows st = Ok st' → P st'.
Proof.
  revert st. induction rows as [|row rows IH]; intros st Hstep HP Hloop.
  - injection Hloop as <-. assumption.
  - simpl in Hloop. destruct (row =? 0); [injection Hloop as <-; assumption|].
    apply bind_inv_Ok in Hloop. destruct Hloop as (st1 & H1 & Hloop).
    apply (IH st1); [|apply (Hstep row st st1); [left|assumption..]|assumption].
    intros r s s' Hr. apply Hstep. now right.
Qed.

(** The stages of [build_item] when it returns. *)
Lemma build_item_stages index values guid is_updated item :
  build_item_ index values guid is_updated = Ok item →
  row_dates timezone localize parse get_localzone index values = Ok (item_dates item) ∧
  row_location index values = Ok (item_location item) ∧
  row_contact index values = Ok (item_contact item) ∧
  (let label := cell_text index values "Occurence status" in
   ∃ qcode, occur_status_qcode_mapping !! label = Some qcode ∧
     item_occur_status item = OccurStatus qcode label (Py.lower label)) ∧
  item_type item = "event" ∧ item_version item = 1 ∧
  item_state item = CONTENT_STATE_DRAFT ∧
  item_definition_short item = cell_text index values "Description" ∧
  item_definition_long item = cell_text index values "Long description" ∧
  item_internal_note item = cell_text index values "Internal note" ∧
  item_ednote item = cell_text index values "Ed note" ∧
  item_links item = [cell_text index values "External links"].
Proof.
  intros H. unfold build_item in H. inv_binds H. injection H as <-. simpl.
  repeat match goal with
         | E : cell _ _ _ = Ok _ |- _ => rewrite (cell_text_Ok _ _ _ _ E); clear E
         | E : dict_get _ _ = Ok _ |- _ => apply dict_get_Ok in E
         end.
  repeat split; eauto.
Qed.




(** The cells of a batch under the column of a field, and its DONE cells. *)
Definition in_column (i : nat) (c : Cell) : bool := cell_col c =? i + 1.

Definition is_done (i_status : nat) (c : Cell) : bool :=
  in_column i_status c && String.eqb (cell_value c) "DONE".

(** The events are, in order, the rows marked DONE, and the _GUID column
    gets their identifiers. *)
Definition written_back (i_status i_guid : nat) (events : list (item_t tzinfo))
    (cells : list Cell) : Prop :=
  ∃ rows, length rows = length events ∧
    List.filter (in_column i_guid) cells
      = zip_with (fun row item => mkCell row (i_guid + 1) (item_guid item)) rows events ∧
    List.filter (is_done i_status) cells
      = map (fun row => mkCell row (i_status + 1) "DONE") rows.

Lemma row_step_written_back data total_col calls index row s s' i_status i_guid :
  resolve_index data total_col = Ok (index, calls) →
  index !! "_STATUS" = Some i_status → index !! "_GUID" = Some i_guid →
  written_back i_status i_guid (items s) (cells_list s) →
  row_step_ index data row s = Ok s' →
  written_back i_status i_guid (items s') (cells_list s').
Proof.
  intros Hres Hs Hg (rows & Hlen & Hguids & Hdone) Hstep.
  assert (Hne : ∀ f g i j, f ∈ all_fields → g ∈ all_fields → f ≠ g →
            index !! f = Some i → index !! g = Some j → (i + 1 =? j + 1) = false).
  { intros f g i j Hf Hg' Hfg Hi Hj. apply Nat.eqb_neq. intros Heq.
    apply (resolved_columns_distinct _ _ _ _ f g i Hres Hf Hg' Hfg Hi).
    rewrite Hj. f_equal. lia. }
  pose proof (Hne "_STATUS" "_GUID" _ _ ltac:(field_in) ltac:(field_in)
                ltac:(discriminate) Hs Hg) as Hsg.
  pose proof (Hne "_GUID" "_STATUS" _ _ ltac:(field_in) ltac:(field_in)
                ltac:(discriminate) Hg Hs) as Hgs.
  apply row_step_cases in Hstep; [|now apply (resolved_bookkeeping _ _ _ _ Hres)].
  destruct Hstep as (values & is_updated & guid & st1 & _ & _ & _ & Hcases).
  destruct Hcases as [(item & cells & Hbuilt & _ & _ & Hcells & Hitems & Hlist)
                     |[(item & _ & _ & _ & Hitems & Hlist)
                      |(reason & _ & Hitems & [[_ Hlist]|(_ & cells & Hcells & Hlist)])]].
  - destruct Hcells as (i_s & i_m & i_g & Hs' & Hm & Hg' & ->).
    rewrite Hs in Hs'. injection Hs' as <-. rewrite Hg in Hg'. injection Hg' as <-.
    pose proof (Hne "_ERR_MESSAGE" "_GUID" _ _ ltac:(field_in) ltac:(field_in)
                  ltac:(discriminate) Hm Hg) as Hmg.
    pose proof (Hne "_ERR_MESSAGE" "_STATUS" _ _ ltac:(field_in) ltac:(field_in)
                  ltac:(discriminate) Hm Hs) as Hms.
    apply build_item_inv in Hbuilt. destruct Hbuilt as (_ & _ & _ & Hguid & _).
    exists (rows ++ [row])%list. rewrite Hitems, Hlist, !List.filter_app, Hguids, Hdone.
    unfold is_done, in_column. simpl.
    rewrite Hsg, Hgs, Hmg, Hms, !Nat.eqb_refl. simpl.
    split; [rewrite !length_app; simpl; lia|]. split.
    + rewrite zip_with_app by assumption. simpl. now rewrite Hguid.
    + now rewrite map_app.
  - exists rows. now rewrite Hitems, Hlist.
  - exists rows. now rewrite Hitems, Hlist.
  - destruct Hcells as (i_s & i_m & Hs' & Hm & ->).
    rewrite Hs in Hs'. injection Hs' as <-.
    pose proof (Hne "_ERR_MESSAGE" "_GUID" _ _ ltac:(field_in) ltac:(field_in)
                  ltac:(discriminate) Hm Hg) as Hmg.
    pose proof (Hne "_ERR_MESSAGE" "_STATUS" _ _ ltac:(field_in) ltac:(field_in)
                  ltac:(discriminate) Hm Hs) as Hms.
    exists rows. rewrite Hitems, Hlist, !List.filter_app, Hguids, Hdone.
    unfold is_done, in_column. simpl.
    rewrite Hsg, Hmg, Hms, !Nat.eqb_refl. simpl.
    now rewrite !app_nil_r.
Qed.

(** X12: the events and the DONE rows of a run.  The events [_update]
    returns are, in order, the rows for which the batch holds DONE in the
    _STATUS column, and the cells of the batch under the _GUID column are
    exactly their identifiers, each in the row of its event: what is
    returned is what is marked as ingested, and nothing else gets an
    identifier. *)
Theorem accepted_events_are_written_back data total_col index header_calls calls events
    i_status i_guid :
  resolve_index data total_col = Ok (index, header_calls) →
  update_ data total_col = (calls, Ok [events]) →
  index !! "_STATUS" = Some i_status → index !! "_GUID" = Some i_guid →
  ∃ cells rows,
    calls = (header_calls ++
             match cells with [] => [] | _ :: _ => [update_cells cells] end)%list ∧
    length rows = length events ∧
    List.filter (in_column i_guid) cells
      = zip_with (fun row item => mkCell row (i_guid + 1) (item_guid item)) rows events ∧
    List.filter (is_done i_status) cells
      = map (fun row => mkCell row (i_status + 1) "DONE") rows.
Proof.
  intros Hres Hupdate Hs Hg. unfold _update in Hupdate. rewrite Hres in Hupdate.
  destruct (rows_loop _ _ _ _ _ _ _ _ _ _) as [st|e] eqn:Hloop; [|discriminate Hupdate].
  injection Hupdate as <- <-.
  assert (Hback : written_back i_status i_guid (items st) (cells_list st)).
  { revert Hloop.
    apply (rows_loop_invariant
             (fun s => written_back i_status i_guid (items s) (cells_list s))).
    - intros row s s' _. now apply (row_step_written_back data total_col header_calls).
    - exists []. repeat split. }
  destruct Hback as (rows & Hlen & Hguids & Hdone).
  exists (cells_list st), rows. split; [|auto].
  destruct (cells_list st); [now rewrite app_nil_r|reflexivity].
Qed.

(** *** The occurrence status and the location *)

(** X13: the occurrence label is looked up as it stands in the cell.  On
    a row with a cell under every title and whose dates are read, a label
    that is not a key of the mapping raises KeyError(label): the row is
    not accepted, and it is marked ERROR with the label as message.  When
    the label is blank the message is empty, so nothing is queued for the
    row: it is neither accepted nor marked. *)
Theorem unknown_occurrence_label data total_col calls index row st values is_updated
    guid st1 dates :
  resolve_index data total_col = Ok (index, calls) →
  getitem data (row - 1) = Ok values →
  read_status index values = Ok is_updated →
  determine_guid_ index values st = Ok (guid, st1) →
  full_row index values →
  row_dates timezone localize parse get_localzone index values = Ok dates →
  let label := cell_text index values "Occurence status" in
  occur_status_qcode_mapping !! label = None →
  build_item_ index values guid is_updated = Raise (Exn KeyError label) ∧
  ∃ st', row_step_ index data row st = Ok st' ∧ items st' = items st ∧
    (label = "" → cells_list st' = cells_list st) ∧
    (label ≠ "" → ∃ cells, error_cells index row label cells ∧
       cells_list st' = (cells_list st ++ cells)%list).
Proof.
  intros Hres Hv Hs Hg Hfull Hdates label Hnone.
  assert (Hraise : build_item_ index values guid is_updated = Raise (Exn KeyError label)).
  { unfold build_item. rewrite Hdates. cbn [bind].
    destruct (Hfull "Event name") as [name Hname]; [field_in|].
    destruct (Hfull "Slugline") as [slugline Hslugline]; [field_in|].
    destruct (Hfull "Occurence status") as [occur Hoccur]; [field_in|].
    subst label. rewrite (cell_text_Ok _ _ _ _ Hoccur) in *.
    rewrite Hname, Hslugline, Hoccur. cbn [bind]. unfold dict_get. now rewrite Hnone. }
  split; [exact Hraise|].
  destruct (row_failure_step index data row st values is_updated guid st1 label
              (resolved_bookkeeping _ _ _ _ Hres) Hv Hs Hg)
    as (st' & Hstep & Hitems & Hcells & _).
  { right. exists (Exn KeyError label). split; [exact Hraise|]. right. split; reflexivity. }
  exists st'. split; [exact Hstep|]. split; [exact Hitems|].
  destruct Hcells as [[Hempty Hcells]|[Hlabel Hcells]]; split; intros Hl;
    first [assumption | contradiction].
Qed.

(** X14: an event that is built has a location exactly when the Location
    Name, Location Address and Location Country cells are all non-empty;
    the city and the region are not required.  The location is then the
    one entry made of the five location cells, the address as a list of
    one line. *)
Theorem location_block_gate index values guid is_updated item :
  build_item_ index values guid is_updated = Ok item →
  let text := cell_text index values in
  (is_Some (item_location item) ↔
     text "Location Name" ≠ "" ∧ text "Location Address" ≠ "" ∧
     text "Location Country" ≠ "") ∧
  (∀ l, item_location item = Some l →
     l = [Location (text "Location Name")
            (Address [text "Location Address"] (text "Location City/Town")
               (text "Location State/Province/Region") (text "Location Country"))]).
Proof.
  intros H. apply build_item_stages in H. destruct H as (_ & Hlocation & _).
  now apply row_location_spec.
Qed.

(** *** Exceptions that leave the loop *)

(** X15: the [try] statement of a row handles UnknownTimeZoneError,
    TypeError, ValueError and KeyError only.  When the rows before row
    3+n are processed and the event of row 3+n cannot be built because
    of another exception, [_update] raises it: only the header calls
    have been made and the cells queued for the earlier rows are never
    written.  A row that ends before the Timezone column is such a row:
    its first read raises IndexError. *)
Theorem uncaught_exception_aborts_update data total_col index header_calls n st1 values
    is_updated guid st2 :
  resolve_index data total_col = Ok (index, header_calls) →
  3 + n ≤ length data →
  rows_loop_ index data (seq 3 n) (LoopState [] [] 0) = Ok st1 →
  data !! (2 + n) = Some values →
  read_status index values = Ok is_updated →
  determine_guid_ index values st1 = Ok (guid, st2) →
  (∀ e, build_item_ index values guid is_updated = Raise e →
     exn_cls e ≠ UnknownTimeZoneError → caught (exn_cls e) = false →
     update_ data total_col = (header_calls, Raise e)) ∧
  (∀ i, index !! "Timezone" = Some i → length values ≤ i →
     build_item_ index values guid is_updated = Raise index_error ∧
     update_ data total_col = (header_calls, Raise index_error)).
Proof.
  intros Hres Hlen Hloop Hvalues Hstatus Hguid.
  assert (Habort : ∀ e, build_item_ index values guid is_updated = Raise e →
            exn_cls e ≠ UnknownTimeZoneError → caught (exn_cls e) = false →
            update_ data total_col = (header_calls, Raise e)).
  { intros e Hraise Hzone Hcaught. unfold _update. rewrite Hres.
    assert (Hrows : data_rows data
                    = (seq 3 n ++ (3 + n) :: seq (4 + n) (length data - 3 - n))%list).
    { unfold data_rows.
      replace (length data + 1 - 3) with (n + S (length data - 3 - n)) by lia.
      rewrite seq_app. simpl. reflexivity. }
    rewrite Hrows, rows_loop_app by (apply seq_nonzero; lia).
    rewrite Hloop. simpl.
    assert (Hstep : row_step_ index data (S (S (S n))) st1 = Raise e).
    { unfold row_step, getitem. replace (S (S (S n)) - 1) with (2 + n) by lia.
      rewrite Hvalues. cbn [bind]. rewrite Hstatus. cbn [bind]. rewrite Hguid.
      cbn [bind fst snd]. unfold try_except.
      apply (try_body_Raise index values (S (S (S n))) guid is_updated st2 e
               (resolved_bookkeeping _ _ _ _ Hres)) in Hraise.
      rewrite Hraise.
      destruct (exn_cls e); first [contradiction | discriminate Hcaught | reflexivity]. }
    now rewrite Hstep. }
  split; [exact Habort|].
  intros i Hi Hshort.
  assert (Hraise : build_item_ index values guid is_updated = Raise index_error).
  { unfold build_item, row_dates, cell, dict_get. rewrite Hi. cbn [bind].
    unfold getitem. now rewrite (lookup_ge_None_2 values i Hshort). }
  split; [exact Hraise|]. apply Habort; [exact Hraise|discriminate|reflexivity].
Qed.

(** *** What a row depends on *)

Lemma rows_loop_ext index data data' rows st :
  (∀ row, row ∈ rows → data' !! (row - 1) = data !! (row - 1)) →
  rows_loop_ index data' rows st = rows_loop_ index data rows st.
Proof.
  revert st. induction rows as [|row rows IH]; intros st H; simpl; [reflexivity|].
  destruct (row =? 0); [reflexivity|].
  assert (Hstep : row_step_ index data' row st = row_step_ index data row st).
  { unfold row_step, getitem. rewrite (H row) by left. reflexivity. }
  rewrite Hstep. clear Hstep.
  destruct (row_step_ index data row st) as [st'|e]; simpl; [|reflexivity].
  apply IH. intros r Hr. apply H. now right.
Qed.

(** X16: the second row of the sheet is a title row: it is never read.
    Whatever it holds, the run makes the same calls and returns the same
    events or raises the same exception. *)
Theorem second_title_row_is_ignored header second second' rows total_col :
  update_ (header :: second :: rows) total_col
  = update_ (header :: second' :: rows) total_col.
Proof.
  unfold _update.
  assert (Hindex : resolve_index (header :: second :: rows) total_col
                   = resolve_index (header :: second' :: rows) total_col) by reflexivity.
  rewrite Hindex.
  destruct (resolve_index (header :: second' :: rows) total_col) as [[index calls]|e];
    [|reflexivity].
  assert (Hrows : data_rows (header :: second :: rows)
                  = data_rows (header :: second' :: rows)) by reflexivity.
  rewrite Hrows.
  rewrite (rows_loop_ext index (header :: second' :: rows) (header :: second :: rows));
    [reflexivity|].
  intros row Hrow. unfold data_rows in Hrow. apply elem_of_seq in Hrow.
  destruct row as [|[|[|row]]]; [lia..|]. reflexivity.
Qed.

(** The titles other than the date titles whose cells are read. *)
Definition read_details : list string :=
  List.filter (fun f => negb (String.eqb f "Contact Point of Contact")) detail_fields.

Lemma row_dates_ext index values values' :
  (∀ f, f ∈ date_fields → cell index values' f = cell index values f) →
  row_dates timezone localize parse get_localzone index values'
  = row_dates timezone localize parse get_localzone index values.
Proof.
  intros H. unfold row_dates.
  repeat match goal with
         | |- context [cell index values' ?f] => rewrite (H f) by field_in
         end.
  reflexivity.
Qed.

Lemma build_item_ext index values values' guid is_updated :
  row_dates timezone localize parse get_localzone index values'
  = row_dates timezone localize parse get_localzone index values →
  (∀ f, f ∈ read_details → cell index values' f = cell index values f) →
  build_item_ index values' guid is_updated = build_item_ index values guid is_updated.
Proof.
  intros Hdates H.
  unfold build_item, row_location, row_contact, required_location_field,
    required_contact_field.
  cbn [all_cells]. rewrite Hdates.
  repeat match goal with
         | |- context [cell index values' ?f] => rewrite (H f) by field_in
         end.
  reflexivity.
Qed.

Lemma read_status_insert index values i a :
  index !! "_STATUS" ≠ Some i →
  read_status index (<[i := a]> values) = read_status index values.
Proof.
  intros Hi. unfold read_status, dict_get.
  destruct (index !! "_STATUS") as [j|]; [|reflexivity]. cbn [bind].
  rewrite length_insert. destruct (_ <? _); [reflexivity|].
  unfold getitem. rewrite list_lookup_insert_ne; [reflexivity|congruence].
Qed.

Lemma determine_guid_insert index values i a (st : @loop_state tzinfo) :
  index !! "_GUID" ≠ Some i →
  determine_guid_ index (<[i := a]> values) st = determine_guid_ index values st.
Proof.
  intros Hi. unfold determine_guid, guid_present.
  rewrite (cell_insert_ne index values i a "_GUID" Hi).
  unfold dict_get. destruct (index !! "_GUID") as [j|]; [|reflexivity]. cbn [bind].
  rewrite length_insert. unfold getitem.
  rewrite list_lookup_insert_ne; [reflexivity|congruence].
Qed.

(** X17: a row is read through the columns of the titles and of _STATUS
    and _GUID only, and of the titles Contact Point of Contact is never
    read.  Rewriting the cell of a row under Contact Point of Contact,
    under _ERR_MESSAGE, or under a column that no field points to leaves
    the iteration of the row as it was: the same event, the same queued
    cells, the same exception. *)
Theorem unread_cells_are_ignored data total_col index header_calls data' row st values i a :
  resolve_index data total_col = Ok (index, header_calls) →
  getitem data (row - 1) = Ok values →
  getitem data' (row - 1) = Ok (<[i := a]> values) →
  index !! "Contact Point of Contact" = Some i ∨ index !! "_ERR_MESSAGE" = Some i ∨
    (∀ f, f ∈ all_fields → index !! f ≠ Some i) →
  row_step_ index data' row st = row_step_ index data row st.
Proof.
  intros Hres Hv Hv' Hcolumn.
  assert (Hused : Forall (fun f => f ∈ all_fields ∧ f ≠ "Contact Point of Contact" ∧
                                   f ≠ "_ERR_MESSAGE")
                    (date_fields ++ read_details ++ ["_STATUS"; "_GUID"])%list) by field_in.
  assert (Hother : ∀ f, f ∈ (date_fields ++ read_details ++ ["_STATUS"; "_GUID"])%list →
            index !! f ≠ Some i).
  { intros f Hf. rewrite Forall_forall in Hused.
    destruct (Hused f Hf) as (Hall & Hpoint & Hmessage).
    destruct Hcolumn as [Hi|[Hi|Hi]].
    - apply (resolved_columns_distinct data total_col index header_calls
               "Contact Point of Contact" f i Hres); [field_in|assumption|congruence|assumption].
    - apply (resolved_columns_distinct data total_col index header_calls
               "_ERR_MESSAGE" f i Hres); [field_in|assumption|congruence|assumption].
    - now apply Hi. }
  assert (Hcell : ∀ f, f ∈ (date_fields ++ read_details ++ ["_STATUS"; "_GUID"])%list →
            cell index (<[i := a]> values) f = cell index values f).
  { intros f Hf. apply cell_insert_ne. now apply Hother. }
  unfold row_step. rewrite Hv, Hv'. cbn [bind].
  rewrite read_status_insert by (apply Hother; field_in).
  destruct (read_status index values) as [is_updated|e]; [|reflexivity]. cbn [bind].
  rewrite determine_guid_insert by (apply Hother; field_in).
  destruct (determine_guid _ _ _ _ _) as [[guid st1]|e]; [|reflexivity]. cbn [bind fst snd].
  assert (Hbuild : build_item_ index (<[i := a]> values) guid is_updated
                   = build_item_ index values guid is_updated).
  { apply build_item_ext.
    - apply row_dates_ext. intros f Hf. apply Hcell. apply elem_of_app. now left.
    - intros f Hf. apply Hcell. apply elem_of_app. right. apply elem_of_app. now left. }
  unfold try_except, try_body. rewrite Hbuild.
  rewrite (Hcell "Event name") by field_in. reflexivity.
Qed.

(** X18: in the Timezone cell, none stands for the zone of the server.
    A row whose Timezone cell is none gives what the same row with the
    name of the local zone in that cell gives; the event, when there is
    one, carries the name of the local zone, which pytz knows; and when
    pytz does not know the local zone the row fails as an invalid
    timezone. *)
Theorem none_timezone_is_local_zone data total_col index header_calls values i guid
    is_updated :
  resolve_index data total_col = Ok (index, header_calls) →
  index !! "Timezone" = Some i →
  cell index values "Timezone" = Ok "none" →
  build_item_ index (<[i := get_localzone]> values) guid is_updated
  = build_item_ index values guid is_updated ∧
  (∀ item, build_item_ index values guid is_updated = Ok item →
     dates_tz (item_dates item) = get_localzone ∧ is_Some (timezone get_localzone)) ∧
  (timezone get_localzone = None →
     build_item_ index values guid is_updated
     = Raise (Exn UnknownTimeZoneError get_localzone)).
Proof.
  intros Hres Hi Hnone.
  assert (Hused : Forall (fun f => f ∈ all_fields ∧ f ≠ "Timezone")
                    (["Start date"; "Start time"; "End date"; "All day"; "End time"]
                     ++ read_details)%list) by field_in.
  assert (Hcell : ∀ f, f ∈ (["Start date"; "Start time"; "End date"; "All day"; "End time"]
                             ++ read_details)%list →
            cell index (<[i := get_localzone]> values) f = cell index values f).
  { intros f Hf. rewrite Forall_forall in Hused. destruct (Hused f Hf) as [Hall Hne].
    apply cell_insert_ne.
    apply (resolved_columns_distinct data total_col index header_calls "Timezone" f i Hres);
      [field_in|assumption|congruence|assumption]. }
  split; [|split].
  - apply build_item_ext.
    + unfold row_dates.
      rewrite (cell_insert_eq index values i get_localzone "Timezone" "none" Hi Hnone).
      rewrite Hnone. cbn [bind].
      repeat match goal with
             | |- context [cell index (<[i := get_localzone]> values) ?f] =>
                 rewrite (Hcell f) by field_in
             end.
      change (negb ("none" =? "none")%string) with false. cbv iota.
      destruct (negb (get_localzone =? "none")%string); reflexivity.
    + intros f Hf. apply Hcell. apply elem_of_app. now right.
  - intros item Hitem. apply build_item_stages in Hitem. destruct Hitem as (Hdates & _).
    apply row_dates_inv in Hdates. destruct Hdates as (Htz & tz & _ & Hzone & _).
    rewrite (cell_text_Ok _ _ _ _ Hnone) in Htz. simpl in Htz.
    rewrite Htz in Hzone. split; [assumption|]. rewrite Hzone. eauto.
  - intros Hunknown. unfold build_item, row_dates. rewrite Hnone. cbn [bind].
    change (negb ("none" =? "none")%string) with false. cbv iota.
    now rewrite Hunknown.
Qed.

(** *** What the outcome of a row does not depend on *)

Lemma read_status_total index values :
  is_Some (index !! "_STATUS") → ∃ s, read_status index values = Ok s.
Proof.
  intros [i Hi]. destruct (values !! i) as [s|] eqn:Hs.
  - eexists. now apply (read_status_present index values i s).
  - exists None. now apply (read_status_absent index values i).
Qed.

Lemma read_status_same index values values' i :
  index !! "_STATUS" = Some i → values' !! i = values !! i →
  read_status index values' = read_status index values.
Proof.
  intros Hi Hsame. destruct (values !! i) as [s|] eqn:Hs.
  - rewrite (read_status_present index values i s Hi Hs).
    apply (read_status_present index values' i s Hi). congruence.
  - rewrite (read_status_absent index values i Hi Hs).
    apply (read_status_absent index values' i Hi). congruence.
Qed.

Lemma determine_guid_total index values (st : @loop_state tzinfo) :
  is_Some (index !! "_GUID") →
  (∀ i g, index !! "_GUID" = Some i → values !! i = Some g → g ≠ "" → find_one g = true) →
  ∃ guid st1, determine_guid_ index values st = Ok (guid, st1).
Proof.
  intros [i Hi] Hknown. unfold determine_guid, guid_present, cell, dict_get.
  rewrite Hi. cbn [bind].
  destruct (Z.gtb_spec (Z.of_nat (length values) - 1) (Z.of_nat i)) as [Hgt|Hle];
    [|cbn [bind]; eauto].
  destruct (lookup_lt_is_Some_2 values i) as [g Hg]; [lia|].
  unfold getitem. rewrite Hg. cbn [bind].
  destruct (Py.truthy g) eqn:Htruthy; [|eauto].
  rewrite (Hknown i g Hi Hg); [simpl; eauto | now apply truthy_spec].
Qed.

(** Whether the event of a row is built, what is raised when it is not,
    and which required fields it lacks, do not depend on the identifier
    and the status the row is read with. *)
Lemma build_item_outcome index values guid is_updated guid' is_updated' :
  match build_item_ index values guid is_updated with
  | Ok item =>
      ∃ item', build_item_ index values guid' is_updated' = Ok item' ∧
               missing_fields item' = missing_fields item
  | Raise e => build_item_ index values guid' is_updated' = Raise e
  end.
Proof.
  unfold build_item.
  repeat match goal with
         | |- context [bind (row_dates ?a ?b ?c ?d ?i ?v) _] =>
             destruct (row_dates a b c d i v); cbn [bind]
         | |- context [bind (cell ?i ?v ?f) _] => destruct (cell i v f); cbn [bind]
         | |- context [bind (dict_get ?m ?k) _] => destruct (dict_get m k); cbn [bind]
         | |- context [bind (row_location ?i ?v) _] =>
             destruct (row_location i v); cbn [bind]
         | |- context [bind (row_contact ?i ?v) _] =>
             destruct (row_contact i v); cbn [bind]
         end;
    first [reflexivity | eexists; split; reflexivity].
Qed.

(** A row that passes validation with a status that is not eligible
    leaves the accepted events and the batch as they were. *)
Lemma row_step_skip index data row st values is_updated guid st1 item :
  getitem data (row - 1) = Ok values →
  read_status index values = Ok is_updated →
  determine_guid_ index values st = Ok (guid, st1) →
  build_item_ index values guid is_updated = Ok item →
  missing_fields item = [] → eligible is_updated = false →
  row_step_ index data row st = Ok st1.
Proof.
  intros Hv Hs Hg Hbuilt Hmissing Heligible.
  assert (Htry : try_except_ index values row guid is_updated st1 = Ok (None, st1)).
  { unfold try_except, try_body, commit. rewrite Hbuilt. cbn [bind].
    now rewrite Hmissing, Heligible. }
  now rewrite (row_step_intro _ _ _ _ _ _ _ _ _ _ Hv Hs Hg Htry).
Qed.

End RowStep.

(** ** A second run over the sheet

    The service is run, its batch is written to the sheet, and the
    service is run again.  The libraries are the same in both runs; the
    events resource and the identifiers generated may differ. *)

Section SecondRun.

Context {tzinfo : Type}.
Variable timezone : string → option tzinfo.
Variable localize : tzinfo → datetime tzinfo → res (datetime tzinfo).
Variable parse : string → res (datetime tzinfo).
Variable get_localzone : string.
Variables find_one find_one' : string → bool.
Variables generate_guid generate_guid' : nat → string.

Abbreviation build_item0 := (build_item timezone localize parse get_localzone).
Abbreviation row_step1 :=
  (row_step timezone localize parse get_localzone find_one generate_guid).
Abbreviation row_step2 :=
  (row_step timezone localize parse get_localzone find_one' generate_guid').
Abbreviation rows_loop1 :=
  (rows_loop timezone localize parse get_localzone find_one generate_guid).
Abbreviation rows_loop2 :=
  (rows_loop timezone localize parse get_localzone find_one' generate_guid').
Abbreviation update1 :=
  (_update timezone localize parse get_localzone find_one generate_guid).
Abbreviation update2 :=
  (_update timezone localize parse get_localzone find_one' generate_guid').

(** What a data row of the second sheet holds, given the row of the first
    sheet and the batch of the first run: the cells under the titles are
    the same; the status cell holds DONE when the batch wrote DONE to it,
    and is the same when the batch wrote nothing to the row; and the
    events resource of the second run knows the identifier in the _GUID
    cell, if there is one. *)
Definition row_after (index : gmap string nat) (batch : list Cell) (row : nat)
    (values values' : list string) : Prop :=
  (∀ f i, f ∈ self_titles → index !! f = Some i → values' !! i = values !! i) ∧
  (∀ i, index !! "_STATUS" = Some i →
     (mkCell row (i + 1) "DONE" ∈ batch → values' !! i = Some "DONE") ∧
     ((∀ c, c ∈ batch → cell_row c ≠ row) → values' !! i = values !! i)) ∧
  (∀ i g, index !! "_GUID" = Some i → values' !! i = Some g → g ≠ "" →
     find_one' g = true).

Lemma second_run_row data total_col calls index data' row s s' t values values' :
  resolve_index data total_col = Ok (index, calls) →
  row_step1 index data row s = Ok s' →
  data !! (row - 1) = Some values → data' !! (row - 1) = Some values' →
  (∀ f i, f ∈ self_titles → index !! f = Some i → values' !! i = values !! i) →
  (∀ i, index !! "_STATUS" = Some i →
     (mkCell row (i + 1) "DONE" ∈ cells_list s' → values' !! i = Some "DONE") ∧
     (cells_list s' = cells_list s → values' !! i = values !! i)) →
  (∀ i g, index !! "_GUID" = Some i → values' !! i = Some g → g ≠ "" →
     find_one' g = true) →
  ∃ t', row_step2 index data' row t = Ok t' ∧ items t' = items t.
Proof.
  intros Hres Hstep Hv Hv' Hagree Hstatus Hknown.
  pose proof (resolved_bookkeeping _ _ _ _ Hres) as Hkeys.
  destruct (Hkeys "_STATUS") as [i_status Hi]; [field_in|].
  destruct (Hstatus i_status Hi) as [Hdone Hsame].
  assert (Hcell : ∀ f, f ∈ self_titles → cell index values' f = cell index values f).
  { intros f Hf. unfold cell, dict_get.
    destruct (index !! f) as [i|] eqn:Hfi; [|reflexivity].
    cbn [bind]. unfold getitem. now rewrite (Hagree f i Hf Hfi). }
  assert (Hfields : Forall (fun f => f ∈ self_titles) (date_fields ++ read_details)%list)
    by field_in.
  rewrite Forall_forall in Hfields.
  assert (Hbuild : ∀ g iu, build_item0 index values' g iu = build_item0 index values g iu).
  { intros g iu. apply build_item_ext.
    - apply row_dates_ext. intros f Hf. apply Hcell, Hfields, elem_of_app. now left.
    - intros f Hf. apply Hcell, Hfields, elem_of_app. now right. }
  assert (Hg1 : getitem data (row - 1) = Ok values) by (unfold getitem; now rewrite Hv).
  assert (Hg2 : getitem data' (row - 1) = Ok values') by (unfold getitem; now rewrite Hv').
  destruct (read_status_total index values') as [iu' Hs']; [eauto|].
  destruct (determine_guid_total find_one' generate_guid' index values' t) as (guid' & t1 & Hg');
    [apply Hkeys; field_in|exact Hknown|].
  pose proof (determine_guid_state find_one' generate_guid' _ _ _ _ _ Hg') as [Hitems _].
  apply (row_step_cases timezone localize parse get_localzone find_one generate_guid)
    in Hstep; [|assumption].
  destruct Hstep as (values0 & is_updated & guid & s1 & Hv0 & Hs & Hg & Hcases).
  rewrite Hg1 in Hv0. injection Hv0 as <-.
  pose proof (build_item_outcome timezone localize parse get_localzone index values
                guid is_updated guid' iu') as Hout.
  assert (Hpass : ∀ item, build_item0 index values guid is_updated = Ok item →
            missing_fields item = [] → eligible iu' = false →
            ∃ t', row_step2 index data' row t = Ok t' ∧ items t' = items t).
  { intros item Hbuilt Hmissing Heligible. rewrite Hbuilt in Hout.
    destruct Hout as (item' & Hbuilt' & Hmissing').
    exists t1. split; [|assumption].
    apply (row_step_skip timezone localize parse get_localzone find_one' generate_guid'
             index data' row t values' iu' guid' t1 item' Hg2 Hs' Hg').
    - now rewrite Hbuild.
    - congruence.
    - assumption. }
  destruct Hcases as [(item & cells & Hbuilt & Hmissing & _ & Hcells & _ & Hlist)
                     |[(item & Hbuilt & Hmissing & Heligible & _ & Hlist)
                      |(reason & Hfail & _)]].
  - apply (Hpass item Hbuilt Hmissing).
    destruct Hcells as (i_s & i_m & i_g & Hs0 & _ & _ & ->).
    rewrite Hi in Hs0. injection Hs0 as <-.
    assert (Hin : mkCell row (i_status + 1) "DONE" ∈ cells_list s').
    { rewrite Hlist. apply elem_of_app. right. left. }
    rewrite (read_status_present index values' i_status "DONE" Hi (Hdone Hin)) in Hs'.
    injection Hs' as <-. reflexivity.
  - apply (Hpass item Hbuilt Hmissing).
    rewrite (read_status_same index values values' i_status Hi (Hsame Hlist)) in Hs'.
    rewrite Hs in Hs'. injection Hs' as <-. assumption.
  - assert (Hfail' : ∃ reason', row_failure timezone localize parse get_localzone
                                  index values' guid' iu' reason').
    { destruct Hfail as [(item & Hbuilt & Hmissing & _)|(e & Hraise & Hclause)].
      - rewrite Hbuilt in Hout. destruct Hout as (item' & Hbuilt' & Hmissing').
        eexists. left. exists item'. split; [now rewrite Hbuild|].
        split; [congruence|reflexivity].
      - rewrite Hraise in Hout.
        destruct Hclause as [(Hcls & _ & name & Hname)|(Hcaught & _)].
        + exists "Invalid timezone". right. exists e. split; [now rewrite Hbuild|].
          left. split; [assumption|]. split; [reflexivity|]. exists name.
          rewrite Hcell; [assumption|field_in].
        + exists (exn_arg e). right. exists e. split; [now rewrite Hbuild|].
          right. split; [assumption|reflexivity]. }
    destruct Hfail' as [reason' Hfail'].
    destruct (row_failure_step timezone localize parse get_localzone find_one'
                generate_guid' index data' row t values' iu' guid' t1 reason'
                Hkeys Hg2 Hs' Hg' Hfail') as (t' & Hstep2 & Hitems' & _).
    exists t'. split; assumption.
Qed.

Lemma second_run_loop data total_col calls index data' rows : ∀ s s_final t,
  resolve_index data total_col = Ok (index, calls) →
  NoDup rows →
  (∀ c, c ∈ cells_list s → cell_row c ∉ rows) →
  rows_loop1 index data rows s = Ok s_final →
  (∀ row values, row ∈ rows → data !! (row - 1) = Some values →
     ∃ values', data' !! (row - 1) = Some values' ∧
       row_after index (cells_list s_final) row values values') →
  ∃ t', rows_loop2 index data' rows t = Ok t' ∧ items t' = items t.
Proof.
  induction rows as [|row rows IH]; intros s s_final t Hres Hnodup Hinv Hloop Hrows.
  - exists t. split; reflexivity.
  - simpl in Hloop |- *. destruct (row =? 0); [exists t; split; reflexivity|].
    apply bind_inv_Ok in Hloop. destruct Hloop as (s1 & Hstep & Hloop).
    apply NoDup_cons in Hnodup. destruct Hnodup as [Hnotin Hnodup].
    destruct (row_step_cells timezone localize parse get_localzone find_one generate_guid
                _ _ _ _ _ _ _ Hres Hstep) as (cells1 & Hc1 & Hb1 & _).
    destruct (rows_loop_cells timezone localize parse get_localzone find_one generate_guid
                _ _ _ _ _ _ _ Hres Hloop) as (cells2 & Hc2 & Hb2 & _).
    rewrite Forall_forall in Hb1, Hb2.
    destruct (row_step_inv timezone localize parse get_localzone find_one generate_guid
                _ _ _ _ _ Hstep) as (values & _ & _ & _ & _ & _ & Hv & _).
    unfold getitem in Hv. destruct (data !! (row - 1)) as [values0|] eqn:Hlookup;
      [|discriminate Hv].
    injection Hv as ->.
    destruct (Hrows row values) as (values' & Hv' & Hagree & Hstatus & Hknown);
      [left|exact Hlookup|].
    destruct (second_run_row data total_col calls index data' row s s1 t values values'
                Hres Hstep Hlookup Hv' Hagree) as (t1 & Hstep2 & Hitems1).
    { intros i Hi. destruct (Hstatus i Hi) as [Hdone Hsame]. split.
      - intros Hin. apply Hdone. rewrite Hc2. apply elem_of_app. now left.
      - intros Heq. apply Hsame. intros c Hc. rewrite Hc2, Heq in Hc.
        apply elem_of_app in Hc. destruct Hc as [Hc|Hc].
        + intros Hrow. apply (Hinv c Hc). rewrite Hrow. left.
        + destruct (Hb2 c Hc) as (r & Hr & Hcr & _). congruence. }
    { exact Hknown. }
    rewrite Hstep2. cbn [bind].
    destruct (IH s1 s_final t1 Hres Hnodup) as (t' & Hloop2 & Hitems2).
    + intros c Hc. rewrite Hc1 in Hc. apply elem_of_app in Hc. destruct Hc as [Hc|Hc].
      * intros Hin. apply (Hinv c Hc). now right.
      * destruct (Hb1 c Hc) as [Hcr _]. congruence.
    + exact Hloop.
    + intros r values1 Hr. apply Hrows. now right.
    + exists t'. split; [exact Hloop2|congruence].
Qed.

(** X19: running the service again accepts nothing.  Suppose a run
    returns, and the sheet of the next run has the same length and the
    same index, the same cells under the titles in every data row, DONE
    in the status cell of the rows the batch marked DONE, the same status
    cell in the rows the batch wrote nothing to, and identifiers that its
    events resource knows.  Then the next run returns too, with no event:
    the rows marked DONE are skipped, and the other rows fail or are
    skipped as before. *)
Theorem second_run_accepts_nothing data total_col index header_calls batch events
    data' total_col' header_calls' :
  resolve_index data total_col = Ok (index, header_calls) →
  update1 data total_col
  = ((header_calls ++ match batch with [] => [] | _ :: _ => [update_cells batch] end)%list,
     Ok [events]) →
  resolve_index data' total_col' = Ok (index, header_calls') →
  length data' = length data →
  (∀ row values values', 3 ≤ row →
     data !! (row - 1) = Some values → data' !! (row - 1) = Some values' →
     row_after index batch row values values') →
  (update2 data' total_col').2 = Ok [[]].
Proof.
  intros Hres Hrun Hres' Hlen Hrows.
  unfold _update in Hrun. rewrite Hres in Hrun.
  destruct (rows_loop _ _ _ _ _ _ _ _ _ _) as [st|e] eqn:Hloop; [|discriminate Hrun].
  injection Hrun as Hcalls _.
  assert (Hbatch : cells_list st = batch).
  { destruct (cells_list st) as [|c cells], batch as [|b batch].
    - reflexivity.
    - apply (f_equal length) in Hcalls. rewrite length_app in Hcalls. simpl in Hcalls. lia.
    - apply (f_equal length) in Hcalls. rewrite app_nil_r, length_app in Hcalls.
      simpl in Hcalls. lia.
    - apply app_inv_head in Hcalls. injection Hcalls as -> ->. reflexivity. }
  subst batch.
  unfold _update. rewrite Hres'.
  assert (Hsame : data_rows data' = data_rows data) by (unfold data_rows; now rewrite Hlen).
  rewrite Hsame.
  destruct (second_run_loop data total_col header_calls index data' (data_rows data)
              (LoopState [] [] 0) st (LoopState [] [] 0) Hres) as (t' & Hloop2 & Hitems).
  - apply NoDup_seq.
  - intros c Hc. now apply elem_of_nil in Hc.
  - exact Hloop.
  - intros row values Hrow Hv. unfold data_rows in Hrow. apply elem_of_seq in Hrow.
    destruct (lookup_lt_is_Some_2 data' (row - 1)) as [values' Hv'].
    { rewrite Hlen. now apply lookup_lt_Some in Hv. }
    exists values'. split; [exact Hv'|]. apply Hrows; [lia|assumption..].
  - rewrite Hloop2. simpl in Hitems. now rewrite Hitems.
Qed.

End SecondRun.

(** * The properties on sample sheets *)

Lemma sample_index_resolved :
  resolve_index [Sample.header] 40 = Ok (Sample.index, []).
Proof.
  unfold Sample.index.
  assert (H : match resolve_index [Sample.header] 40 with
              | Ok (_, []) => true
              | _ => false
              end = true) by (vm_compute; reflexivity).
  destruct (resolve_index [Sample.header] 40) as [[index [|c calls]]|e];
    try discriminate H.
  reflexivity.
Qed.

Lemma contact_block_gate_witness :
  ∃ item error_message st',
    Sample.body Sample.contact_row = Ok (item, error_message, st') ∧
    is_Some (item_contact item) ∧
    ∀ c, item_contact item = Some c →
      ∃ p, contact_phone c = [p] ∧ phone_public p ≠ true.
Proof.
  destruct (Sample.body Sample.contact_row) as [[[item error_message] st']|e] eqn:E;
    [|vm_compute in E; discriminate].
  exists item, error_message, st'. split; [reflexivity|].
  destruct (contact_block_gate _ _ _ _ _ _ _ _ _ _ _ _ _ E) as [Hgate Hphone].
  clear E. split.
  - apply Hgate. vm_compute.
    split; [intros [=]|]. split; [intros [=]|]. right. intros [=].
  - intros c Hc. destruct (Hphone c Hc) as (p & Hp & Hiff). exists p. split; [assumption|].
    intros Hpublic. apply Hiff in Hpublic. destruct Hpublic as [_ Husage].
    apply Husage. vm_compute. reflexivity.
Defined.



(** On a sample sheet, a row whose identifier is unknown to the events
    resource stops the run: [KeyError] is raised before the [try] statement, nothing is
    written, and the valid row after it is never reached. *)
Theorem unknown_guid_aborts_run :
  Sample.run Sample.none_known
    (Sample.sheet Sample.wide_header
       [Sample.wide_row "urn:newsml:lost"; Sample.wide_row ""])
  = ([], Raise (Exn KeyError "GUID is not exists")).
Proof. vm_compute. reflexivity. Qed.

(** On a sample sheet, an identifier in the last cell of the row is not
    reused: the
    events resource knows it, the row is accepted, and the event and the
    _GUID cell get a generated identifier.  With one more cell after it,
    the same identifier is reused. *)
Theorem guid_in_last_cell_not_reused :
  (let r := Sample.run Sample.all_known (Sample.sheet Sample.header [Sample.updated_row]) in
   (r.1, Sample.guids r.2))
  = ([update_cells [mkCell 3 30 "DONE"; mkCell 3 31 ""; mkCell 3 32 "urn:newsml:0"]],
     Ok [["urn:newsml:0"]]) ∧
  (let r := Sample.run Sample.all_known
              (Sample.sheet Sample.wide_header [Sample.wide_row "urn:newsml:known"]) in
   (r.1, Sample.guids r.2))
  = ([update_cells [mkCell 3 30 "DONE"; mkCell 3 31 ""; mkCell 3 32 "urn:newsml:known"]],
     Ok [["urn:newsml:known"]]).
Proof. split; vm_compute; reflexivity. Qed.

Lemma missing_fields_untouched_counterexample :
  ¬ (∀ values guid is_updated item st',
       Sample.build values guid is_updated = Ok item →
       missing_fields item ≠ [] →
       Sample.step Sample.all_known (Sample.sheet Sample.header [values]) 3
         (LoopState [] [] 0) = Ok st' →
       items st' = [] ∧ cells_list st' = []).
Proof.
  intros H.
  destruct (Sample.build Sample.no_calendar_row "" None) as [item|e] eqn:Ebuild;
    [|vm_compute in Ebuild; discriminate Ebuild].
  destruct (Sample.step Sample.all_known
              (Sample.sheet Sample.header [Sample.no_calendar_row]) 3 (LoopState [] [] 0))
    as [st'|e] eqn:Estep; [|vm_compute in Estep; discriminate Estep].
  assert (Hmissing : missing_fields item ≠ []).
  { clear H Estep. vm_compute in Ebuild. injection Ebuild as <-. vm_compute. intros [=]. }
  destruct (H _ _ _ _ _ Ebuild Hmissing Estep) as [_ Hcells].
  clear H Ebuild Hmissing. vm_compute in Estep. injection Estep as <-.
  discriminate Hcells.
Qed.

Lemma short_row_contained_counterexample :
  ¬ (∀ values,
       ∃ st', Sample.step Sample.all_known (Sample.sheet Sample.header [values]) 3
                (LoopState [] [] 0) = Ok st').
Proof.
  intros H. destruct (H Sample.short_row) as [st' Hstep]. clear H.
  vm_compute in Hstep. discriminate Hstep.
Qed.

Lemma Ok_pair_inj {A B} (a a' : A) (b b' : B) :
  Ok (a, b) = Ok (a', b') → a = a' ∧ b = b'.
Proof. intros [= -> ->]. auto. Qed.

Lemma resolve_index_header h rest total_col :
  resolve_index (h :: rest) total_col = resolve_index [h] total_col.
Proof. reflexivity. Qed.

Lemma sample_sheet_resolved rows :
  resolve_index (Sample.sheet Sample.header rows) 40 = Ok (Sample.index, []).
Proof. unfold Sample.sheet. rewrite resolve_index_header. apply sample_index_resolved. Qed.


Lemma failed_rows_are_marked_witness :
  ∃ st' cells,
    Sample.step Sample.all_known (Sample.sheet Sample.header [Sample.no_calendar_row]) 3
      (LoopState [] [] 0) = Ok st' ∧
    items st' = [] ∧
    error_cells Sample.index 3 "Missing calendars fields" cells ∧
    cells_list st' = cells.
Proof.
  assert (Hs : read_status Sample.index Sample.no_calendar_row = Ok (Some ""))
    by (vm_compute; reflexivity).
  assert (Hg : determine_guid (tzinfo := string) Sample.all_known Sample.generate_guid Sample.index
                 Sample.no_calendar_row (LoopState [] [] 0)
               = Ok ("urn:newsml:0", LoopState [] [] 1))
    by (vm_compute; reflexivity).
  pose proof (failed_rows_are_marked Sample.timezone Sample.localize Sample.parse
                "Europe/Brussels" Sample.all_known Sample.generate_guid
                _ _ _ _ 3 (LoopState [] [] 0) _ _ _ _
                (sample_sheet_resolved [Sample.no_calendar_row]) eq_refl Hs Hg)
    as (Hmissing & _ & _).
  clear Hs Hg.
  destruct (Sample.build Sample.no_calendar_row "urn:newsml:0" (Some "")) as [item|e] eqn:E;
    [|vm_compute in E; discriminate E].
  destruct (Hmissing item eq_refl) as [_ Hmarked]. clear Hmissing.
  vm_compute in E. injection E as <-.
  destruct Hmarked as (st' & cells & Hstep & Hitems & Hcells & Hlist).
  { vm_compute. intros [=]. }
  exists st', cells. split; [exact Hstep|]. split; [exact Hitems|].
  split; [exact Hcells | exact Hlist].
Defined.

Lemma sample_rows_full values :
  length values = 32 → full_row Sample.index values.
Proof.
  intros Hlen f Hf.
  assert (Hcolumn : ∃ i, Sample.index !! f = Some i ∧ i < 32).
  { revert f Hf. apply Forall_forall. unfold self_titles.
    repeat (apply Forall_cons; split;
            [eexists; split; [vm_compute; reflexivity | lia]|]).
    apply Forall_nil. exact I. }
  destruct Hcolumn as (i & Hi & Hlt).
  destruct (lookup_lt_is_Some_2 values i) as [v Hv]; [lia|].
  exists v. unfold cell, dict_get, getitem. rewrite Hi. simpl. now rewrite Hv.
Qed.

Lemma row_failures_contained_witness :
  ∃ st',
    Sample.step Sample.all_known
      (Sample.sheet Sample.header [Sample.bad_timezone_row; Sample.valid_row]) 3
      (LoopState [] [] 0) = Ok st' ∧
    items st' = [] ∧
    rows_loop Sample.timezone Sample.localize Sample.parse "Europe/Brussels"
      Sample.all_known Sample.generate_guid Sample.index
      (Sample.sheet Sample.header [Sample.bad_timezone_row; Sample.valid_row])
      [3; 4] (LoopState [] [] 0)
    = rows_loop Sample.timezone Sample.localize Sample.parse "Europe/Brussels"
        Sample.all_known Sample.generate_guid Sample.index
        (Sample.sheet Sample.header [Sample.bad_timezone_row; Sample.valid_row])
        [4] st'.
Proof.
  assert (Hs : read_status Sample.index Sample.bad_timezone_row = Ok (Some ""))
    by (vm_compute; reflexivity).
  assert (Hg : determine_guid (tzinfo := string) Sample.all_known Sample.generate_guid Sample.index
                 Sample.bad_timezone_row (LoopState [] [] 0)
               = Ok ("urn:newsml:0", LoopState [] [] 1))
    by (vm_compute; reflexivity).
  assert (Hfull : full_row Sample.index Sample.bad_timezone_row)
    by (apply sample_rows_full; reflexivity).
  pose proof (row_failures_contained Sample.timezone Sample.localize Sample.parse
                "Europe/Brussels" Sample.all_known Sample.generate_guid
                _ _ _ _ 3 (LoopState [] [] 0) _ _ _ _
                (sample_sheet_resolved [Sample.bad_timezone_row; Sample.valid_row])
                eq_refl Hs Hg Hfull)
    as (Hzone & Hraise & _ & _).
  clear Hs Hg Hfull.
  assert (Hnone : Sample.timezone
            (if negb (String.eqb (cell_text Sample.index Sample.bad_timezone_row "Timezone")
                        "none")
             then cell_text Sample.index Sample.bad_timezone_row "Timezone"
             else "Europe/Brussels") = None)
    by (vm_compute; reflexivity).
  destruct (Hraise _ (Hzone Hnone) (or_introl eq_refl)) as (st' & Hstep & Hitems & Hloop).
  exists st'. split; [exact Hstep|]. split; [exact Hitems|].
  apply Hloop. discriminate.
Defined.

Lemma batched_write_back_witness :
  ∃ index header_calls (st : @loop_state string),
    resolve_index (Sample.sheet Sample.header [Sample.bad_timezone_row; Sample.valid_row]) 40
    = Ok (index, header_calls) ∧
    (Sample.run Sample.all_known
       (Sample.sheet Sample.header [Sample.bad_timezone_row; Sample.valid_row])).1
    = (header_calls ++ [update_cells (cells_list st)])%list ∧
    length (cells_list st) = 5.
Proof.
  destruct (batched_write_back Sample.timezone Sample.localize Sample.parse
              "Europe/Brussels" Sample.all_known Sample.generate_guid
              (Sample.sheet Sample.header [Sample.bad_timezone_row; Sample.valid_row]) 40)
    as [Hbatch _].
  destruct (Sample.run Sample.all_known
              (Sample.sheet Sample.header [Sample.bad_timezone_row; Sample.valid_row]))
    as [calls result] eqn:E.
  pose proof E as E'. unfold Sample.run in E'. specialize (Hbatch _ _ E'). clear E'.
  vm_compute in E. injection E as <- <-.
  destruct Hbatch as (index & header_calls & st & Hres & _ & Hloop & _ & _).
  exists index, header_calls, st. split; [exact Hres|].
  rewrite sample_sheet_resolved in Hres.
  apply Ok_pair_inj in Hres. destruct Hres as [<- <-].
  vm_compute in Hloop. injection Hloop as <-.
  split; reflexivity.
Defined.

(** ** More sample rows *)

(** A row with a blank occurrence status, a row with a location, a row
    whose timezone is none, and the valid row with a point of contact. *)
Definition blank_label_row : list string := Sample.with_cell 9 "" Sample.valid_row.

Definition location_row : list string :=
  Sample.with_cell 11 "Residence Palace" (Sample.with_cell 12 "Rue de la Loi 155"
    (Sample.with_cell 15 "Belgium" Sample.valid_row)).

Definition none_timezone_row : list string := Sample.with_cell 5 "none" Sample.valid_row.

Lemma unknown_guid_aborts_update_witness :
  Sample.run Sample.none_known
    (Sample.sheet Sample.header [Sample.wide_row "urn:newsml:lost"; Sample.valid_row])
  = ([], Raise (Exn KeyError "GUID is not exists")).
Proof.
  unfold Sample.run.
  apply (unknown_guid_aborts_update Sample.timezone Sample.localize Sample.parse
           "Europe/Brussels" Sample.none_known Sample.generate_guid
           _ 40 Sample.index [] 0 (LoopState [] [] 0)
           (Sample.wide_row "urn:newsml:lost") "urn:newsml:lost").
  - apply sample_sheet_resolved.
  - simpl. lia.
  - reflexivity.
  - reflexivity.
  - vm_compute. reflexivity.
  - vm_compute. reflexivity.
  - reflexivity.
Defined.

Lemma guid_in_last_cell_is_replaced_witness :
  determine_guid (tzinfo := string) Sample.all_known Sample.generate_guid Sample.index
    Sample.updated_row (LoopState [] [] 0)
  = Ok ("urn:newsml:0", LoopState [] [] 1).
Proof.
  assert (Hguid : Sample.index !! "_GUID" = Some 31) by (vm_compute; reflexivity).
  assert (Hlen : length Sample.updated_row ≤ 31 + 1) by (vm_compute; lia).
  assert (Hs : read_status Sample.index Sample.updated_row = Ok (Some "UPDATED"))
    by (vm_compute; reflexivity).
  destruct (guid_in_last_cell_is_replaced Sample.timezone Sample.localize Sample.parse
              "Europe/Brussels" Sample.all_known Sample.generate_guid
              Sample.index (Sample.sheet Sample.header [Sample.updated_row]) 3
              (LoopState [] [] 0) Sample.updated_row (Some "UPDATED") 31
              Hguid Hlen eq_refl Hs) as [Hfresh _].
  exact Hfresh.
Defined.



Lemma batch_cells_are_bookkeeping_witness :
  ∃ cells,
    (Sample.run Sample.all_known
       (Sample.sheet Sample.header [Sample.bad_timezone_row; Sample.valid_row])).1
    = [update_cells cells] ∧
    length cells = 5 ∧ NoDup (map coordinates cells).
Proof.
  destruct (Sample.run Sample.all_known
              (Sample.sheet Sample.header [Sample.bad_timezone_row; Sample.valid_row]))
    as [calls [returned|e]] eqn:E; [|vm_compute in E; discriminate E].
  pose proof E as E'. unfold Sample.run in E'.
  pose proof (batch_cells_are_bookkeeping Sample.timezone Sample.localize Sample.parse
                "Europe/Brussels" Sample.all_known Sample.generate_guid
                _ 40 Sample.index [] calls returned
                (sample_sheet_resolved [Sample.bad_timezone_row; Sample.valid_row]) E')
    as Hbatch.
  clear E'. vm_compute in E. injection E as <- _.
  match type of Hbatch with
  | ∀ cells, update_cells cells ∈ [update_cells ?cs] → _ =>
      destruct (Hbatch cs) as [_ Hnodup]; [left|]; exists cs
  end.
  split; [reflexivity|]. split; [reflexivity|exact Hnodup].
Defined.


Lemma accepted_events_are_written_back_witness :
  ∃ events rows,
    (Sample.run Sample.all_known
       (Sample.sheet Sample.header [Sample.bad_timezone_row; Sample.valid_row])).2
    = Ok [events] ∧
    length rows = length events ∧ rows = [4].
Proof.
  destruct (Sample.run Sample.all_known
              (Sample.sheet Sample.header [Sample.bad_timezone_row; Sample.valid_row]))
    as [calls [[|events [|more rest]]|e]] eqn:E;
    [vm_compute in E; discriminate E| |vm_compute in E; discriminate E..].
  pose proof E as E'. unfold Sample.run in E'.
  assert (Hs : Sample.index !! "_STATUS" = Some 29) by (vm_compute; reflexivity).
  assert (Hg : Sample.index !! "_GUID" = Some 31) by (vm_compute; reflexivity).
  destruct (accepted_events_are_written_back Sample.timezone Sample.localize Sample.parse
              "Europe/Brussels" Sample.all_known Sample.generate_guid
              _ 40 Sample.index [] calls events 29 31
              (sample_sheet_resolved [Sample.bad_timezone_row; Sample.valid_row]) E' Hs Hg)
    as (cells & rows & Hcalls & Hlen & _ & Hdone).
  clear E' Hs Hg. exists events, rows. split; [reflexivity|]. split; [exact Hlen|].
  clear Hlen. vm_compute in E. injection E as <- _.
  simpl in Hcalls. destruct cells as [|c cells]; [discriminate Hcalls|].
  injection Hcalls as <- <-.
  unfold is_done, in_column in Hdone. simpl in Hdone.
  destruct rows as [|row [|row' rows]]; simpl in Hdone;
    [discriminate Hdone| |discriminate Hdone].
  injection Hdone as <-. reflexivity.
Defined.

Lemma unknown_occurrence_label_witness :
  ∃ st',
    Sample.step Sample.all_known (Sample.sheet Sample.header [blank_label_row]) 3
      (LoopState [] [] 0) = Ok st' ∧
    items st' = [] ∧ cells_list st' = [].
Proof.
  assert (Hs : read_status Sample.index blank_label_row = Ok (Some ""))
    by (vm_compute; reflexivity).
  assert (Hg : determine_guid (tzinfo := string) Sample.all_known Sample.generate_guid
                 Sample.index blank_label_row (LoopState [] [] 0)
               = Ok ("urn:newsml:0", LoopState [] [] 1))
    by (vm_compute; reflexivity).
  assert (Hfull : full_row Sample.index blank_label_row)
    by (apply sample_rows_full; reflexivity).
  destruct (row_dates Sample.timezone Sample.localize Sample.parse "Europe/Brussels"
              Sample.index blank_label_row) as [dates|e] eqn:Hdates;
    [|vm_compute in Hdates; discriminate Hdates].
  assert (Hnone : occur_status_qcode_mapping
                    !! cell_text Sample.index blank_label_row "Occurence status" = None)
    by (vm_compute; reflexivity).
  assert (Hlabel : cell_text Sample.index blank_label_row "Occurence status" = "")
    by (vm_compute; reflexivity).
  destruct (unknown_occurrence_label Sample.timezone Sample.localize Sample.parse
              "Europe/Brussels" Sample.all_known Sample.generate_guid
              _ 40 [] Sample.index 3 (LoopState [] [] 0) blank_label_row (Some "")
              "urn:newsml:0" (LoopState [] [] 1) dates
              (sample_sheet_resolved [blank_label_row]) eq_refl Hs Hg Hfull Hdates Hnone)
    as (_ & st' & Hstep & Hitems & Hblank & _).
  exists st'. split; [exact Hstep|]. split; [exact Hitems|]. exact (Hblank Hlabel).
Defined.

Lemma location_block_gate_witness :
  ∃ item, Sample.build location_row "urn:newsml:sample" None = Ok item ∧
          is_Some (item_location item).
Proof.
  destruct (Sample.build location_row "urn:newsml:sample" None) as [item|e] eqn:E;
    [|vm_compute in E; discriminate E].
  exists item. split; [reflexivity|].
  destruct (location_block_gate Sample.timezone Sample.localize Sample.parse
              "Europe/Brussels" Sample.index location_row "urn:newsml:sample" None item E)
    as [Hgate _].
  clear E. apply Hgate. vm_compute.
  split; [intros [=]|]. split; intros [=].
Defined.

Lemma uncaught_exception_aborts_update_witness :
  Sample.run Sample.all_known
    (Sample.sheet Sample.header [Sample.short_row; Sample.valid_row])
  = ([], Raise index_error).
Proof.
  assert (Hs : read_status Sample.index Sample.short_row = Ok None)
    by (vm_compute; reflexivity).
  assert (Hg : determine_guid (tzinfo := string) Sample.all_known Sample.generate_guid
                 Sample.index Sample.short_row (LoopState [] [] 0)
               = Ok ("urn:newsml:0", LoopState [] [] 1))
    by (vm_compute; reflexivity).
  assert (Hlen : 3 + 0 ≤ length (Sample.sheet Sample.header
                                   [Sample.short_row; Sample.valid_row]))
    by (simpl; lia).
  destruct (uncaught_exception_aborts_update Sample.timezone Sample.localize Sample.parse
              "Europe/Brussels" Sample.all_known Sample.generate_guid
              _ 40 Sample.index [] 0 (LoopState [] [] 0) Sample.short_row None
              "urn:newsml:0" (LoopState [] [] 1)
              (sample_sheet_resolved [Sample.short_row; Sample.valid_row])
              Hlen eq_refl eq_refl Hs Hg) as [_ Hshort].
  destruct (Hshort 5) as [_ Hrun]; [vm_compute; reflexivity|vm_compute; lia|].
  exact Hrun.
Defined.

Lemma unread_cells_are_ignored_witness :
  Sample.step Sample.all_known
    (Sample.sheet Sample.header [<[20 := "news desk"]> Sample.valid_row]) 3
    (LoopState [] [] 0)
  = Sample.step Sample.all_known (Sample.sheet Sample.header [Sample.valid_row]) 3
      (LoopState [] [] 0).
Proof.
  apply (unread_cells_are_ignored Sample.timezone Sample.localize Sample.parse
           "Europe/Brussels" Sample.all_known Sample.generate_guid
           (Sample.sheet Sample.header [Sample.valid_row]) 40 Sample.index []
           (Sample.sheet Sample.header [<[20 := "news desk"]> Sample.valid_row]) 3
           (LoopState [] [] 0) Sample.valid_row 20 "news desk").
  - apply sample_sheet_resolved.
  - reflexivity.
  - reflexivity.
  - left. vm_compute. reflexivity.
Defined.

Lemma none_timezone_is_local_zone_witness :
  Sample.build (<[5 := "Europe/Brussels"]> none_timezone_row) "urn:newsml:sample" None
  = Sample.build none_timezone_row "urn:newsml:sample" None.
Proof.
  assert (Hi : Sample.index !! "Timezone" = Some 5) by (vm_compute; reflexivity).
  assert (Hnone : cell Sample.index none_timezone_row "Timezone" = Ok "none")
    by (vm_compute; reflexivity).
  destruct (none_timezone_is_local_zone Sample.timezone Sample.localize Sample.parse
              "Europe/Brussels" [Sample.header] 40 Sample.index [] none_timezone_row 5
              "urn:newsml:sample" None sample_index_resolved Hi Hnone) as [Hsame _].
  exact Hsame.
Defined.

(** ** A sheet before and after a run *)

(** A sheet with an invalid and a valid row, the batch of its run, and
    the sheet with the batch written to it. *)
Definition first_sheet : list (list string) :=
  Sample.sheet Sample.header [Sample.bad_timezone_row; Sample.valid_row].

Definition first_batch : list Cell := [
  mkCell 3 30 "ERROR"; mkCell 3 31 "Invalid timezone";
  mkCell 4 30 "DONE"; mkCell 4 31 ""; mkCell 4 32 "urn:newsml:1"
].

Definition second_sheet : list (list string) :=
  Sample.sheet Sample.header
    [<[29 := "ERROR"]> (<[30 := "Invalid timezone"]> Sample.bad_timezone_row);
     <[29 := "DONE"]> (<[31 := "urn:newsml:1"]> Sample.valid_row)].

Lemma sample_title_columns f i :
  f ∈ self_titles → Sample.index !! f = Some i → i < 29.
Proof.
  intros Hf Hi.
  assert (Hcolumn : ∃ j, Sample.index !! f = Some j ∧ j < 29).
  { clear Hi. revert f Hf. apply Forall_forall. unfold self_titles.
    repeat (apply Forall_cons; split;
            [eexists; split; [vm_compute; reflexivity | lia]|]).
    apply Forall_nil. exact I. }
  destruct Hcolumn as (j & Hj & Hlt). congruence.
Qed.

Lemma second_run_accepts_nothing_witness :
  (Sample.run Sample.all_known second_sheet).2 = Ok [[]].
Proof.
  destruct (Sample.run Sample.all_known first_sheet)
    as [calls [[|events [|more rest]]|e]] eqn:E;
    [vm_compute in E; discriminate E| |vm_compute in E; discriminate E..].
  assert (Hcalls : calls = [update_cells first_batch])
    by (vm_compute in E; injection E as <- _; reflexivity).
  subst calls. unfold Sample.run in E.
  assert (Hstatus : Sample.index !! "_STATUS" = Some 29) by (vm_compute; reflexivity).
  unfold Sample.run.
  apply (second_run_accepts_nothing Sample.timezone Sample.localize Sample.parse
           "Europe/Brussels" Sample.all_known Sample.all_known
           Sample.generate_guid Sample.generate_guid
           first_sheet 40 Sample.index [] first_batch events second_sheet 40 []
           (sample_sheet_resolved _) E (sample_sheet_resolved _) eq_refl).
  clear E. intros row values values' Hrow Hv Hv'.
  destruct row as [|[|[|[|[|row]]]]]; try lia.
  - change (Some Sample.bad_timezone_row = Some values) in Hv.
    change (Some (<[29 := "ERROR"]> (<[30 := "Invalid timezone"]> Sample.bad_timezone_row))
            = Some values') in Hv'.
    apply (inj Some) in Hv, Hv'. subst values values'. split; [|split].
    + intros f i Hf Hi. apply (sample_title_columns f i Hf) in Hi.
      rewrite !list_lookup_insert_ne by lia. reflexivity.
    + intros i Hi. rewrite Hstatus in Hi. injection Hi as <-. split.
      * intros Hin. unfold first_batch in Hin.
        repeat (apply elem_of_cons in Hin; destruct Hin as [Hin|Hin]; [discriminate Hin|]).
        now apply elem_of_nil in Hin.
      * intros Hno. exfalso. apply (Hno (mkCell 3 30 "ERROR")); [left|reflexivity].
    + reflexivity.
  - change (Some Sample.valid_row = Some values) in Hv.
    change (Some (<[29 := "DONE"]> (<[31 := "urn:newsml:1"]> Sample.valid_row))
            = Some values') in Hv'.
    apply (inj Some) in Hv, Hv'. subst values values'. split; [|split].
    + intros f i Hf Hi. apply (sample_title_columns f i Hf) in Hi.
      rewrite !list_lookup_insert_ne by lia. reflexivity.
    + intros i Hi. rewrite Hstatus in Hi. injection Hi as <-. split.
      * intros _. reflexivity.
      * intros Hno. exfalso.
        apply (Hno (mkCell 4 30 "DONE")); [right; right; left|reflexivity].
    + reflexivity.
  - apply lookup_lt_Some in Hv. simpl in Hv. lia.
Defined.
